(** * GameRMCR native overlay: presentation hook, frame timer and overlay text

    A shallow embedding of [native/src/dxhook/dx11_hook.cpp],
    [native/src/overlay/imgui_overlay.cpp] and [native/src/main.cpp].

    - C++ [float] is IEEE-754 binary32; its arithmetic is the Standard
      Library's [SpecFloat] at precision 24 and maximal exponent 128
      (round to nearest, ties to even).
    - [int] and [HRESULT] are 32-bit two's complement integers carried in [Z].
    - A [std::chrono::high_resolution_clock::time_point] is a count of
      nanosecond ticks carried in [Z] (the period of the clock in the MSVC,
      libstdc++ and libc++ runtimes).
    - The reading of the clock and the answer of the graphics runtime are
      inputs of the functions that consult them. *)

From Stdlib Require Import ZArith List String Ascii Bool Lia.
From Stdlib Require Import Floats.SpecFloat.
Import ListNotations.

Local Open Scope Z_scope.

(** ** binary32 arithmetic *)

Module F32.

Definition prec : Z := 24.
Definition emax : Z := 128.

Definition float : Type := spec_float.

(** Integer to [float] conversion, as in the usual arithmetic conversions. *)
Definition of_Z (n : Z) : float := binary_normalize prec emax n 0 false.

Definition add : float -> float -> float := SFadd prec emax.
Definition mul : float -> float -> float := SFmul prec emax.
Definition div : float -> float -> float := SFdiv prec emax.

(** [x >= y]; false as soon as one side is a NaN. *)
Definition geb (x y : float) : bool := SFleb y x.

Definition valid (x : float) : bool := valid_binary prec emax x.

Definition zero : float := S754_zero false.

(** The literals of the sources. [0.5f] and [0.8f] are the correctly
    rounded quotients of exactly representable integers. *)
Definition lit_1 : float := Eval vm_compute in of_Z 1.
Definition lit_500 : float := Eval vm_compute in of_Z 500.
Definition lit_1000 : float := Eval vm_compute in of_Z 1000.
Definition lit_0_5 : float := Eval vm_compute in div (of_Z 1) (of_Z 2).
Definition lit_0_8 : float := Eval vm_compute in div (of_Z 8) (of_Z 10).

End F32.

(** ** Machine integers *)

Definition INT_MIN : Z := - 2 ^ 31.
Definition INT_MAX : Z := 2 ^ 31 - 1.

(** Two's complement wrap-around of a 32-bit [int]. *)
Definition wrap_int (z : Z) : Z := (z + 2 ^ 31) mod 2 ^ 32 - 2 ^ 31.

Definition int_range (z : Z) : Prop := INT_MIN <= z <= INT_MAX.

Definition HRESULT : Type := Z.
Definition UINT : Type := Z.
Definition pointer : Type := Z.
Definition nullptr : pointer := 0.

Definition FAILED (hr : HRESULT) : bool := hr <? 0.

(** ** std::chrono *)

Definition time_point : Type := Z.

(** [duration_cast<microseconds>] of a nanosecond duration: integer division
    truncating toward zero. *)
Definition duration_cast_microseconds (d : Z) : Z := Z.quot d 1000.

(** ** dx11_hook.cpp *)

Module DX11Hook.

Section Host.

(** The state of the host application's presentation machinery, which the
    original [Present] reads and updates. *)
Variable HostState : Type.

(** [PresentFunc]: the type of the original entry point. *)
Definition PresentFunc : Type :=
  pointer -> UINT -> UINT -> HostState -> HostState * HRESULT.

Record t : Type := mk {
  device : pointer;
  context : pointer;
  swapChain : pointer;
  originalPresent : option PresentFunc;   (* [None] is [nullptr] *)
  initialized : bool;
  lastFrameTime : time_point;
  currentFPS : F32.float;
  frameTime : F32.float;
  frameCount : Z;
  fpsAccumulator : F32.float;
  cpuUsage : F32.float;
  cpuTemp : F32.float;
  gpuUsage : F32.float;
  gpuTemp : F32.float;
  ramUsage : Z;
  vramUsage : Z
}.

(** The default member initialisers of the class; a default-constructed
    [time_point] is the clock's epoch. *)
Definition instance0 : t :=
  mk nullptr nullptr nullptr None false 0
     F32.zero F32.zero 0 F32.zero
     F32.zero F32.zero F32.zero F32.zero 0 0.

(** What [D3D11CreateDeviceAndSwapChain] answers: its return code, the
    three interface pointers it stores, and entry 8 of the swap chain's
    virtual table. *)
Record CreateResult : Type := mkCreate {
  hr : HRESULT;
  out_swapChain : pointer;
  out_device : pointer;
  out_context : pointer;
  vtable_8 : PresentFunc
}.

Definition Initialize (h : t) (created : CreateResult) (now : time_point)
  : t * bool :=
  if initialized h then (h, true)
  else
    let h1 :=
      mk (out_device created) (out_context created) (out_swapChain created)
         (originalPresent h) (initialized h) (lastFrameTime h)
         (currentFPS h) (frameTime h) (frameCount h) (fpsAccumulator h)
         (cpuUsage h) (cpuTemp h) (gpuUsage h) (gpuTemp h)
         (ramUsage h) (vramUsage h) in
    if FAILED (hr created) then (h1, false)
    else
      (mk (device h1) (context h1) (swapChain h1)
          (Some (vtable_8 created)) true now
          (currentFPS h1) (frameTime h1) (frameCount h1) (fpsAccumulator h1)
          (cpuUsage h1) (cpuTemp h1) (gpuUsage h1) (gpuTemp h1)
          (ramUsage h1) (vramUsage h1),
       true).

Definition Shutdown (h : t) : t :=
  mk (device h) (context h) (swapChain h)
     (originalPresent h) false (lastFrameTime h)
     (currentFPS h) (frameTime h) (frameCount h) (fpsAccumulator h)
     (cpuUsage h) (cpuTemp h) (gpuUsage h) (gpuTemp h)
     (ramUsage h) (vramUsage h).

(** The timing fields after one frame. *)
Definition set_timing (h : t) (last : time_point)
    (fps ft : F32.float) (count : Z) (acc : F32.float) : t :=
  mk (device h) (context h) (swapChain h)
     (originalPresent h) (initialized h) last
     fps ft count acc
     (cpuUsage h) (cpuTemp h) (gpuUsage h) (gpuTemp h)
     (ramUsage h) (vramUsage h).

(** [duration.count() / 1000.0f] *)
Definition elapsed_ms (now last : time_point) : F32.float :=
  F32.div (F32.of_Z (duration_cast_microseconds (now - last))) F32.lit_1000.

Definition CalculateFPS (h : t) (now : time_point) : t :=
  let ft := elapsed_ms now (lastFrameTime h) in
  let count := wrap_int (frameCount h + 1) in
  let acc := F32.add (fpsAccumulator h) ft in
  if F32.geb acc F32.lit_500 then
    set_timing h now
      (F32.div (F32.mul (F32.of_Z count) F32.lit_1000) acc) ft 0 F32.zero
  else
    set_timing h now (currentFPS h) ft count acc.

Definition GetFPS (h : t) : F32.float := currentFPS h.

Definition GetFrameTime (h : t) : F32.float := frameTime h.

Definition SetMetrics (h : t) (cpu cpuT gpu gpuT : F32.float) (ram vram : Z)
  : t :=
  mk (device h) (context h) (swapChain h)
     (originalPresent h) (initialized h) (lastFrameTime h)
     (currentFPS h) (frameTime h) (frameCount h) (fpsAccumulator h)
     cpu cpuT gpu gpuT ram vram.

(** The process as the hook sees it: the singleton, the host's state, and
    the record of the calls made to the original entry point. *)
Record Process : Type := mkProcess {
  hook : t;
  host : HostState;
  forwarded : list (pointer * UINT * UINT)
}.

(** A call through the [originalPresent] pointer; calling a null function
    pointer has no defined result. *)
Definition call_original (p : Process) (pSwapChain : pointer)
    (SyncInterval Flags : UINT) : option (Process * HRESULT) :=
  match originalPresent (hook p) with
  | None => None
  | Some present =>
      let '(host', code) := present pSwapChain SyncInterval Flags (host p) in
      Some (mkProcess (hook p) host'
              (forwarded p ++ [(pSwapChain, SyncInterval, Flags)]),
            code)
  end.

Definition HookedPresent (p : Process) (now : time_point)
    (pSwapChain : pointer) (SyncInterval Flags : UINT)
  : option (Process * HRESULT) :=
  let p1 := mkProcess (CalculateFPS (hook p) now) (host p) (forwarded p) in
  call_original p1 pSwapChain SyncInterval Flags.

(** The singleton after a run of intercepted frames, given the clock
    readings of the frames. *)
Definition run_ticks (h : t) (stamps : list time_point) : t :=
  fold_left CalculateFPS stamps h.

End Host.

Arguments mk {HostState}.
Arguments device {HostState}.
Arguments context {HostState}.
Arguments swapChain {HostState}.
Arguments originalPresent {HostState}.
Arguments initialized {HostState}.
Arguments lastFrameTime {HostState}.
Arguments currentFPS {HostState}.
Arguments frameTime {HostState}.
Arguments frameCount {HostState}.
Arguments fpsAccumulator {HostState}.
Arguments cpuUsage {HostState}.
Arguments cpuTemp {HostState}.
Arguments gpuUsage {HostState}.
Arguments gpuTemp {HostState}.
Arguments ramUsage {HostState}.
Arguments vramUsage {HostState}.
Arguments mkCreate {HostState}.
Arguments hr {HostState}.
Arguments out_swapChain {HostState}.
Arguments out_device {HostState}.
Arguments out_context {HostState}.
Arguments vtable_8 {HostState}.
Arguments Initialize {HostState}.
Arguments Shutdown {HostState}.
Arguments set_timing {HostState}.
Arguments CalculateFPS {HostState}.
Arguments GetFPS {HostState}.
Arguments GetFrameTime {HostState}.
Arguments SetMetrics {HostState}.
Arguments mkProcess {HostState}.
Arguments hook {HostState}.
Arguments host {HostState}.
Arguments forwarded {HostState}.
Arguments call_original {HostState}.
Arguments HookedPresent {HostState}.
Arguments run_ticks {HostState}.

End DX11Hook.

(** ** The C library's formatted output

    [snprintf] and [strncpy] as the C standard defines them, for the
    conversions the sources use: [%d] on an [int], and [%.Nf] on a [float]
    (promoted to [double], which is exact).  A [%.Nf] conversion prints the
    exact binary value rounded to [N] decimals, ties to even, as the current
    Universal C Runtime and glibc do; a NaN, which carries neither sign nor
    payload in [SpecFloat], is printed [nan].  The lengths and the line
    structure established below hold whichever way a tie is rounded. *)

Module Printf.

Local Open Scope string_scope.

Definition NUL : ascii := Ascii.zero.

(** The line feed, written [\n] in the sources. *)
Definition LF : ascii := ascii_of_nat 10.
Definition nl : string := String LF "".

Definition digit_char (d : Z) : ascii := ascii_of_nat (48 + Z.to_nat d).

Fixpoint digits_onto (fuel : nat) (n : Z) (acc : string) : string :=
  match fuel with
  | O => acc
  | S fuel' =>
      let acc' := String (digit_char (n mod 10)) acc in
      if (n <? 10)%Z then acc' else digits_onto fuel' (n / 10) acc'
  end.

(** The decimal digits of a natural number; a number has no more decimal
    digits than binary ones. *)
Definition decimal (n : Z) : string :=
  digits_onto (S (Z.to_nat (Z.log2 n))) n "".

(** The number a string of decimal digits denotes. *)
Fixpoint digits_value (s : string) : Z :=
  match s with
  | "" => 0
  | String c rest =>
      (Z.of_nat (nat_of_ascii c) - 48) * 10 ^ Z.of_nat (String.length rest)
      + digits_value rest
  end.

(** [%d] *)
Definition fmt_d (z : Z) : string :=
  if (z <? 0)%Z then "-" ++ decimal (- z) else decimal z.

(** [|m * 2^e| * 10^p] rounded to an integer, ties to even. *)
Definition scaled (m : positive) (e : Z) (p : nat) : Z :=
  let num := Zpos m * 10 ^ Z.of_nat p in
  if (0 <=? e)%Z then num * 2 ^ e
  else
    let d := 2 ^ (- e) in
    let q := num / d in
    let r := num mod d in
    match (2 * r ?= d)%Z with
    | Lt => q
    | Gt => q + 1
    | Eq => if Z.even q then q else q + 1
    end.

(** The last [p] decimal digits of [n], and the number left of them. *)
Fixpoint frac_digits (p : nat) (n : Z) (acc : string) : Z * string :=
  match p with
  | O => (n, acc)
  | S p' => frac_digits p' (n / 10) (String (digit_char (n mod 10)) acc)
  end.

(** [n / 10^p] in fixed notation with [p] decimals. *)
Definition fixed (p : nat) (n : Z) : string :=
  let '(ip, fr) := frac_digits p n "" in
  match p with
  | O => decimal ip
  | S _ => decimal ip ++ "." ++ fr
  end.

Definition sign (s : bool) : string := if s then "-" else "".

(** [%.pf] *)
Definition fmt_f (p : nat) (x : F32.float) : string :=
  match x with
  | S754_nan => "nan"
  | S754_infinity s => sign s ++ "inf"
  | S754_zero s => sign s ++ fixed p 0
  | S754_finite s m e => sign s ++ fixed p (scaled m e p)
  end.

(** What [snprintf] with size argument [size] leaves in the destination
    before the terminating NUL: at most [size - 1] characters. *)
Definition truncated (size : Z) (text : string) : string :=
  substring 0 (Z.to_nat (size - 1)) text.

(** What [snprintf] returns: the length of the untruncated text. *)
Definition would_write (text : string) : Z := Z.of_nat (String.length text).

(** [strncpy(dest, src, n)]: [n] characters are written, those of [src]
    padded with NULs; the rest of [dest] is left alone. *)
Definition strncpy (dest : list ascii) (src : string) (n : nat) : list ascii :=
  let copied := firstn n (list_ascii_of_string src) in
  (copied ++ repeat NUL (n - List.length copied) ++ skipn n dest)%list.

(** A [char] array read as a C string: up to the first NUL. *)
Fixpoint c_str (a : list ascii) : string :=
  match a with
  | [] => ""
  | c :: a' => if Ascii.eqb c NUL then "" else String c (c_str a')
  end.

(** A string literal initialising [char[n]]. *)
Definition char_array (n : nat) (s : string) : list ascii :=
  strncpy (repeat NUL n) s n.

End Printf.

(** ** imgui_overlay.h *)

Module OverlayMetrics.

Record t : Type := mk {
  fps : F32.float;
  frameTime : F32.float;
  cpuUsage : F32.float;
  cpuTemp : F32.float;
  gpuUsage : F32.float;
  gpuTemp : F32.float;
  ramUsage : Z;
  vramUsage : Z
}.

Definition default : t :=
  mk F32.zero F32.zero F32.zero F32.zero F32.zero F32.zero 0 0.

(** Every [float] field holds a binary32 value and every [int] field a
    32-bit integer, as the C++ types guarantee. *)
Definition wf (m : t) : Prop :=
  F32.valid (fps m) = true /\
  F32.valid (cpuUsage m) = true /\ F32.valid (cpuTemp m) = true /\
  F32.valid (gpuUsage m) = true /\ F32.valid (gpuTemp m) = true /\
  int_range (ramUsage m) /\ int_range (vramUsage m).

End OverlayMetrics.

Module OverlayConfig.

Definition RGBA : Type := (F32.float * F32.float * F32.float * F32.float)%type.

Record t : Type := mk {
  fontFamily : list ascii;                  (* char[64] *)
  fontSize : Z;
  color : RGBA;                             (* float[4] *)
  opacity : F32.float;
  showFPS : bool;
  showCPU : bool;
  showGPU : bool;
  showRAM : bool;
  showTemps : bool
}.

Definition default_color : RGBA :=
  (F32.zero, F32.lit_1, F32.lit_0_5, F32.lit_1).

(** The default member initialisers. *)
Definition default : t :=
  mk (Printf.char_array 64 "Segoe UI") 14 default_color F32.lit_0_8
     true true true true true.

Definition set_color (c : t) (v : RGBA) : t :=
  mk (fontFamily c) (fontSize c) v (opacity c)
     (showFPS c) (showCPU c) (showGPU c) (showRAM c) (showTemps c).
Definition set_fontSize (c : t) (v : Z) : t :=
  mk (fontFamily c) v (color c) (opacity c)
     (showFPS c) (showCPU c) (showGPU c) (showRAM c) (showTemps c).
Definition set_fontFamily (c : t) (v : list ascii) : t :=
  mk v (fontSize c) (color c) (opacity c)
     (showFPS c) (showCPU c) (showGPU c) (showRAM c) (showTemps c).
Definition set_showFPS (c : t) (v : bool) : t :=
  mk (fontFamily c) (fontSize c) (color c) (opacity c)
     v (showCPU c) (showGPU c) (showRAM c) (showTemps c).
Definition set_showCPU (c : t) (v : bool) : t :=
  mk (fontFamily c) (fontSize c) (color c) (opacity c)
     (showFPS c) v (showGPU c) (showRAM c) (showTemps c).
Definition set_showGPU (c : t) (v : bool) : t :=
  mk (fontFamily c) (fontSize c) (color c) (opacity c)
     (showFPS c) (showCPU c) v (showRAM c) (showTemps c).
Definition set_showRAM (c : t) (v : bool) : t :=
  mk (fontFamily c) (fontSize c) (color c) (opacity c)
     (showFPS c) (showCPU c) (showGPU c) v (showTemps c).
Definition set_showTemps (c : t) (v : bool) : t :=
  mk (fontFamily c) (fontSize c) (color c) (opacity c)
     (showFPS c) (showCPU c) (showGPU c) (showRAM c) v.

End OverlayConfig.

(** ** imgui_overlay.cpp *)

Module ImGuiOverlay.

Import Printf.
Local Open Scope string_scope.

(** The static members of the class. *)
Record t : Type := mk {
  isVisible : bool;
  initialized : bool;
  posX : Z;
  posY : Z;
  opacity : F32.float;
  config : OverlayConfig.t
}.

(** The static member initialisation at the top of the file. *)
Definition statics0 : t :=
  mk true false 10 10 F32.lit_0_8 OverlayConfig.default.

Definition set_config (o : t) (cfg : OverlayConfig.t) : t :=
  mk (isVisible o) (initialized o) (posX o) (posY o) (opacity o) cfg.

Definition Initialize (o : t) (device context : pointer) : t :=
  if initialized o then o
  else
    let c := config o in
    let c := OverlayConfig.set_fontSize c 14 in
    let c := OverlayConfig.set_showFPS c true in
    let c := OverlayConfig.set_showCPU c true in
    let c := OverlayConfig.set_showGPU c true in
    let c := OverlayConfig.set_showRAM c true in
    let c := OverlayConfig.set_showTemps c true in
    let c := OverlayConfig.set_fontFamily c
               (strncpy (OverlayConfig.fontFamily c) "Segoe UI" (64 - 1)) in
    let c := OverlayConfig.set_color c
               (F32.zero, F32.lit_1, F32.lit_0_5, F32.lit_1) in
    mk (isVisible o) true (posX o) (posY o) (opacity o) c.

Definition Shutdown (o : t) : t :=
  if negb (initialized o) then o
  else mk (isVisible o) false (posX o) (posY o) (opacity o) (config o).

Definition SetVisible (o : t) (visible : bool) : t :=
  mk visible (initialized o) (posX o) (posY o) (opacity o) (config o).

Definition SetPosition (o : t) (x y : Z) : t :=
  mk (isVisible o) (initialized o) x y (opacity o) (config o).

Definition SetOpacity (o : t) (op : F32.float) : t :=
  mk (isVisible o) (initialized o) (posX o) (posY o) op (config o).

Definition SetConfig (o : t) (cfg : OverlayConfig.t) : t := set_config o cfg.

Definition IsVisible (o : t) : bool := isVisible o.

(** *** The formatted pieces *)

(** ["FPS: %.1f\n"] *)
Definition fps_text (x : F32.float) : string :=
  "FPS: " ++ fmt_f 1 x ++ nl.

(** ["CPU: %.1f%%"] and ["GPU: %.1f%%"] *)
Definition usage_text (label : string) (x : F32.float) : string :=
  label ++ ": " ++ fmt_f 1 x ++ "%".

(** [" (%.0f°C)"]; the degree sign is the two bytes of its UTF-8 encoding,
    as in the source file. *)
Definition temp_text (x : F32.float) : string :=
  " (" ++ fmt_f 0 x ++ "°C)".

(** ["RAM: %d MB\n"] and ["VRAM: %d MB\n"] *)
Definition mem_text (label : string) (mb : Z) : string :=
  label ++ ": " ++ fmt_d mb ++ " MB" ++ nl.

(** *** GetRenderedText *)

(** [snprintf(buf, sizeof(buf), ...)] into a [char buf[64]], read back as a
    C string. *)
Definition via_buf (text : string) : string := truncated 64 text.

Definition GetRenderedText (o : t) (metrics : OverlayMetrics.t) : string :=
  let cfg := config o in
  let result := "" in
  let result :=
    if OverlayConfig.showFPS cfg then
      result ++ via_buf (fps_text (OverlayMetrics.fps metrics))
    else result in
  let result :=
    if OverlayConfig.showCPU cfg then
      let result :=
        result ++ via_buf (usage_text "CPU" (OverlayMetrics.cpuUsage metrics)) in
      let result :=
        if OverlayConfig.showTemps cfg then
          result ++ via_buf (temp_text (OverlayMetrics.cpuTemp metrics))
        else result in
      result ++ nl
    else result in
  let result :=
    if OverlayConfig.showGPU cfg then
      let result :=
        result ++ via_buf (usage_text "GPU" (OverlayMetrics.gpuUsage metrics)) in
      let result :=
        if OverlayConfig.showTemps cfg then
          result ++ via_buf (temp_text (OverlayMetrics.gpuTemp metrics))
        else result in
      result ++ nl
    else result in
  let result :=
    if OverlayConfig.showRAM cfg then
      let result :=
        result ++ via_buf (mem_text "RAM" (OverlayMetrics.ramUsage metrics)) in
      result ++ via_buf (mem_text "VRAM" (OverlayMetrics.vramUsage metrics))
    else result in
  result.

(** *** Render *)

Definition BUFFER_SIZE : Z := 512.

(** The local [char buffer[512]] (a byte not yet written is [None]), the
    running [offset], and the [(offset, size)] of each [snprintf] call made
    so far. *)
Record TextBuffer : Type := mkBuffer {
  bytes : list (option ascii);
  offset : Z;
  calls : list (Z * Z)
}.

Definition buffer0 : TextBuffer :=
  mkBuffer (repeat None (Z.to_nat BUFFER_SIZE)) 0 [].

Definition store (a : list (option ascii)) (at_ : nat) (cs : list ascii)
  : list (option ascii) :=
  (firstn at_ a ++ map Some cs ++ skipn (at_ + List.length cs) a)%list.

(** [offset += snprintf(buffer + offset, sizeof(buffer) - offset, ...)].
    Once [offset] is past the end of the buffer the pointer is out of
    bounds and the unsigned size wraps around: there is no defined result.
    With a size of zero nothing is written. *)
Definition append (b : TextBuffer) (text : string) : option TextBuffer :=
  if ((0 <=? offset b) && (offset b <=? BUFFER_SIZE))%Z then
    let size := BUFFER_SIZE - offset b in
    let written :=
      if (size =? 0)%Z then []
      else (list_ascii_of_string (truncated size text) ++ [NUL])%list in
    Some (mkBuffer (store (bytes b) (Z.to_nat (offset b)) written)
                   (wrap_int (offset b + would_write text))
                   (calls b ++ [(offset b, size)]))
  else None.

Definition and_then (c : option TextBuffer)
    (k : TextBuffer -> option TextBuffer) : option TextBuffer :=
  match c with
  | Some b => k b
  | None => None
  end.

Local Notation "c >>= k" := (and_then c k) (at level 50, left associativity).

(** The text-building part of [Render]. *)
Definition build_text (cfg : OverlayConfig.t) (metrics : OverlayMetrics.t)
  : option TextBuffer :=
  Some buffer0
  >>= (fun b =>
    if OverlayConfig.showFPS cfg then
      append b (fps_text (OverlayMetrics.fps metrics))
    else Some b)
  >>= (fun b =>
    if OverlayConfig.showCPU cfg then
      append b (usage_text "CPU" (OverlayMetrics.cpuUsage metrics))
      >>= (fun b =>
        if OverlayConfig.showTemps cfg then
          append b (temp_text (OverlayMetrics.cpuTemp metrics))
        else Some b)
      >>= (fun b => append b nl)
    else Some b)
  >>= (fun b =>
    if OverlayConfig.showGPU cfg then
      append b (usage_text "GPU" (OverlayMetrics.gpuUsage metrics))
      >>= (fun b =>
        if OverlayConfig.showTemps cfg then
          append b (temp_text (OverlayMetrics.gpuTemp metrics))
        else Some b)
      >>= (fun b => append b nl)
    else Some b)
  >>= (fun b =>
    if OverlayConfig.showRAM cfg then
      append b (mem_text "RAM" (OverlayMetrics.ramUsage metrics))
      >>= (fun b => append b (mem_text "VRAM" (OverlayMetrics.vramUsage metrics)))
    else Some b).

(** What a call of [Render] did. *)
Inductive Rendered : Type :=
| Skipped
| Built (b : TextBuffer).

(** [Render] returns the static members as it leaves them and what it
    did; [None] when the call has no defined behaviour. *)
Definition Render (o : t) (metrics : OverlayMetrics.t)
  : option (t * Rendered) :=
  if negb (isVisible o) || negb (initialized o) then Some (o, Skipped)
  else
    match build_text (config o) metrics with
    | Some b => Some (o, Built b)
    | None => None
    end.

End ImGuiOverlay.

(** ** main.cpp: the exported control surface *)

Module Exports.

Section Host.

Variable HostState : Type.

(** The library's globals: the hook singleton, the overlay's static
    members, and the file-level [g_metrics] and [g_config]. *)
Record Globals : Type := mk {
  hook : DX11Hook.t HostState;
  overlay : ImGuiOverlay.t;
  g_metrics : OverlayMetrics.t;
  g_config : OverlayConfig.t
}.

Definition globals0 : Globals :=
  mk (DX11Hook.instance0 HostState) ImGuiOverlay.statics0
     OverlayMetrics.default OverlayConfig.default.

Definition Initialize (g : Globals)
    (created : DX11Hook.CreateResult HostState) (now : time_point)
  : Globals * bool :=
  let '(h, ok) := DX11Hook.Initialize (hook g) created now in
  (mk h (overlay g) (g_metrics g) (g_config g), ok).

Definition Shutdown (g : Globals) : Globals :=
  mk (DX11Hook.Shutdown (hook g))
     (ImGuiOverlay.Shutdown (overlay g)) (g_metrics g) (g_config g).

Definition SetMetrics (g : Globals)
    (cpu_usage cpu_temp gpu_usage gpu_temp : F32.float) (ram_mb vram_mb : Z)
  : Globals :=
  let h := DX11Hook.SetMetrics (hook g)
             cpu_usage cpu_temp gpu_usage gpu_temp ram_mb vram_mb in
  mk h (overlay g)
     (OverlayMetrics.mk
        (DX11Hook.GetFPS h) (DX11Hook.GetFrameTime h)
        cpu_usage cpu_temp gpu_usage gpu_temp ram_mb vram_mb)
     (g_config g).

Definition GetCurrentFPS (g : Globals) : F32.float :=
  DX11Hook.GetFPS (hook g).

Definition GetFrameTime (g : Globals) : F32.float :=
  DX11Hook.GetFrameTime (hook g).

Definition SetOverlayVisible (g : Globals) (visible : bool) : Globals :=
  mk (hook g) (ImGuiOverlay.SetVisible (overlay g) visible)
     (g_metrics g) (g_config g).

Definition SetOverlayPosition (g : Globals) (x y : Z) : Globals :=
  mk (hook g) (ImGuiOverlay.SetPosition (overlay g) x y)
     (g_metrics g) (g_config g).

Definition SetOverlayOpacity (g : Globals) (opacity : F32.float) : Globals :=
  mk (hook g) (ImGuiOverlay.SetOpacity (overlay g) opacity)
     (g_metrics g) (g_config g).

Definition IsOverlayVisible (g : Globals) : bool :=
  ImGuiOverlay.IsVisible (overlay g).

(** Each configuration setter updates one field of [g_config] and hands the
    whole of it to [ImGuiOverlay::SetConfig]. *)
Definition publish (g : Globals) (cfg : OverlayConfig.t) : Globals :=
  mk (hook g) (ImGuiOverlay.SetConfig (overlay g) cfg) (g_metrics g) cfg.

Definition SetOverlayColor (g : Globals) (r g_ b a : F32.float) : Globals :=
  publish g (OverlayConfig.set_color (g_config g) (r, g_, b, a)).

Definition SetOverlayFontSize (g : Globals) (size : Z) : Globals :=
  publish g (OverlayConfig.set_fontSize (g_config g) size).

Definition SetOverlayShowFPS (g : Globals) (show : bool) : Globals :=
  publish g (OverlayConfig.set_showFPS (g_config g) show).

Definition SetOverlayShowCPU (g : Globals) (show : bool) : Globals :=
  publish g (OverlayConfig.set_showCPU (g_config g) show).

Definition SetOverlayShowGPU (g : Globals) (show : bool) : Globals :=
  publish g (OverlayConfig.set_showGPU (g_config g) show).

Definition SetOverlayShowRAM (g : Globals) (show : bool) : Globals :=
  publish g (OverlayConfig.set_showRAM (g_config g) show).

Definition SetOverlayShowTemps (g : Globals) (show : bool) : Globals :=
  publish g (OverlayConfig.set_showTemps (g_config g) show).

End Host.

Arguments mk {HostState}.
Arguments hook {HostState}.
Arguments overlay {HostState}.
Arguments g_metrics {HostState}.
Arguments g_config {HostState}.
Arguments Initialize {HostState}.
Arguments Shutdown {HostState}.
Arguments SetMetrics {HostState}.
Arguments GetCurrentFPS {HostState}.
Arguments GetFrameTime {HostState}.
Arguments SetOverlayVisible {HostState}.
Arguments SetOverlayPosition {HostState}.
Arguments SetOverlayOpacity {HostState}.
Arguments IsOverlayVisible {HostState}.
Arguments publish {HostState}.
Arguments SetOverlayColor {HostState}.
Arguments SetOverlayFontSize {HostState}.
Arguments SetOverlayShowFPS {HostState}.
Arguments SetOverlayShowCPU {HostState}.
Arguments SetOverlayShowGPU {HostState}.
Arguments SetOverlayShowRAM {HostState}.
Arguments SetOverlayShowTemps {HostState}.

End Exports.

(** ** Runs, windows and lines: the vocabulary of the properties *)

Module Timeline.

Section Host.

Variable HostState : Type.

(** The accumulator after the frames at [stamps], starting from [acc] with
    the previous frame at [last]. *)
Fixpoint accumulate (acc : F32.float) (last : time_point)
    (stamps : list time_point) : F32.float :=
  match stamps with
  | [] => acc
  | now :: rest =>
      accumulate (F32.add acc (DX11Hook.elapsed_ms now last)) now rest
  end.

(** No frame of [stamps] brings the accumulator to 500 ms. *)
Fixpoint below_threshold (acc : F32.float) (last : time_point)
    (stamps : list time_point) : bool :=
  match stamps with
  | [] => true
  | now :: rest =>
      let acc' := F32.add acc (DX11Hook.elapsed_ms now last) in
      negb (F32.geb acc' F32.lit_500) && below_threshold acc' now rest
  end.

(** The milliseconds accumulated over [stamps] in a window that opens at
    state [h]. *)
Definition window_ms (h : DX11Hook.t HostState) (stamps : list time_point)
  : F32.float :=
  accumulate F32.zero (DX11Hook.lastFrameTime h) stamps.

Definition window_open (h : DX11Hook.t HostState) : Prop :=
  DX11Hook.frameCount h = 0 /\
  DX11Hook.fpsAccumulator h = F32.zero.

(** A run of [Initialize] calls, with the answer of each. *)
Fixpoint Initialize_again (h : DX11Hook.t HostState)
    (calls : list (DX11Hook.CreateResult HostState * time_point))
  : DX11Hook.t HostState * list bool :=
  match calls with
  | [] => (h, [])
  | (created, now) :: rest =>
      let '(h1, ok) := DX11Hook.Initialize h created now in
      let '(h2, oks) := Initialize_again h1 rest in
      (h2, ok :: oks)
  end.

End Host.

Arguments window_ms {HostState}.
Arguments window_open {HostState}.
Arguments Initialize_again {HostState}.

End Timeline.

Module Lines.

Import Printf.
Local Open Scope string_scope.

(** The lines of a text: each LF ends one; characters after the last LF
    form a last line. *)
Fixpoint split_lines (s : string) : list string :=
  match s with
  | "" => []
  | String c rest =>
      if Ascii.eqb c LF then "" :: split_lines rest
      else
        match split_lines rest with
        | [] => [String c ""]
        | l :: ls => String c l :: ls
        end
  end.

Fixpoint nl_free (s : string) : bool :=
  match s with
  | "" => true
  | String c rest => negb (Ascii.eqb c LF) && nl_free rest
  end.

Inductive Kind : Type := FPS | CPU | GPU | RAM | VRAM.

Definition Kind_eqb (a b : Kind) : bool :=
  match a, b with
  | FPS, FPS | CPU, CPU | GPU, GPU | RAM, RAM | VRAM, VRAM => true
  | _, _ => false
  end.

Definition temp_suffix (show : bool) (x : F32.float) : string :=
  if show then " (" ++ fmt_f 0 x ++ "°C)" else "".

Definition fps_line (x : F32.float) : string := "FPS: " ++ fmt_f 1 x.

Definition usage_line (label : string) (x : F32.float) (temps : bool)
    (temp : F32.float) : string :=
  label ++ ": " ++ fmt_f 1 x ++ "%" ++ temp_suffix temps temp.

Definition mem_line (label : string) (mb : Z) : string :=
  label ++ ": " ++ fmt_d mb ++ " MB".

(** [composeText] as the specification words it: the lines in their fixed
    order, each under its visibility flag. *)
Definition composeText (cfg : OverlayConfig.t) (m : OverlayMetrics.t)
  : list (Kind * string) :=
  ((if OverlayConfig.showFPS cfg
    then [(FPS, fps_line (OverlayMetrics.fps m))] else [])
   ++
   (if OverlayConfig.showCPU cfg
    then [(CPU, usage_line "CPU" (OverlayMetrics.cpuUsage m)
                  (OverlayConfig.showTemps cfg) (OverlayMetrics.cpuTemp m))]
    else [])
   ++
   (if OverlayConfig.showGPU cfg
    then [(GPU, usage_line "GPU" (OverlayMetrics.gpuUsage m)
                  (OverlayConfig.showTemps cfg) (OverlayMetrics.gpuTemp m))]
    else [])
   ++
   (if OverlayConfig.showRAM cfg
    then [(RAM, mem_line "RAM" (OverlayMetrics.ramUsage m));
          (VRAM, mem_line "VRAM" (OverlayMetrics.vramUsage m))]
    else []))%list.

(** A line of [composeText] with the temperature suffix it gets when
    [showTemps] is [show]. *)
Definition with_temps (show : bool) (m : OverlayMetrics.t)
    (l : Kind * string) : string :=
  match fst l with
  | CPU => snd l ++ temp_suffix show (OverlayMetrics.cpuTemp m)
  | GPU => snd l ++ temp_suffix show (OverlayMetrics.gpuTemp m)
  | _ => snd l
  end.

(** The text whose lines are [ls], each ended by a line feed. *)
Fixpoint join_lines (ls : list string) : string :=
  match ls with
  | []%list => ""
  | (l :: rest)%list => l ++ nl ++ join_lines rest
  end.

Definition without (k : Kind) (ls : list (Kind * string))
  : list (Kind * string) :=
  filter (fun l => negb (Kind_eqb (fst l) k)) ls.

(** The lines the code produces under configuration [cfg]. *)
Definition rendered_lines (o : ImGuiOverlay.t) (cfg : OverlayConfig.t)
    (m : OverlayMetrics.t) : list string :=
  split_lines
    (ImGuiOverlay.GetRenderedText (ImGuiOverlay.SetConfig o cfg) m).

End Lines.

Module Bounds.

Import ImGuiOverlay.

(** A [snprintf] call of [Render] whose destination lies within the
    buffer and whose size argument is what is left of it. *)
Definition call_in_bounds (call : Z * Z) : Prop :=
  0 <= fst call <= BUFFER_SIZE /\ snd call = BUFFER_SIZE - fst call.

(** The buffer is still 512 bytes, the running offset is at most [limit],
    and every call so far was in bounds. *)
Definition in_bounds (limit : Z) (b : TextBuffer) : Prop :=
  List.length (bytes b) = Z.to_nat BUFFER_SIZE /\
  0 <= offset b <= limit /\
  Forall call_in_bounds (calls b).

Definition rendered_in_bounds (r : Rendered) : Prop :=
  match r with
  | Skipped => True
  | Built b => in_bounds 279 b
  end.

End Bounds.

(** ** Sample values *)

Module Samples.

(** A host whose state counts the frames presented; its [Present] answers
    [S_OK]. *)
Definition present_counting : DX11Hook.PresentFunc nat :=
  fun _ _ _ frames => (S frames, 0).

Definition created_ok : DX11Hook.CreateResult nat :=
  DX11Hook.mkCreate 0 4096 8192 12288 present_counting.

(** [E_FAIL] *)
Definition created_failed : DX11Hook.CreateResult nat :=
  DX11Hook.mkCreate (-2147467259) 0 0 0 present_counting.

Definition installed_at (t0 : time_point) : DX11Hook.t nat :=
  fst (DX11Hook.Initialize (DX11Hook.instance0 nat) created_ok t0).

Definition process : DX11Hook.Process nat :=
  DX11Hook.mkProcess (installed_at 0) 0%nat [].

Definition ms (n : Z) : time_point := n * 1000000.

Definition metrics : OverlayMetrics.t :=
  OverlayMetrics.mk (F32.of_Z 60) (F32.of_Z 16)
    (F32.of_Z 50) (F32.of_Z 65) (F32.of_Z 80) (F32.of_Z 70) 8192 4096.

Definition hidden : ImGuiOverlay.t :=
  ImGuiOverlay.SetVisible ImGuiOverlay.statics0 false.

Definition custom_config : OverlayConfig.t :=
  OverlayConfig.mk (Printf.char_array 64 "Consolas") 20
    (F32.lit_1, F32.zero, F32.zero, F32.lit_1) F32.lit_0_5
    false true false true false.

End Samples.

(** ** Runs of intercepted frames *)

Module Frames.

Section Host.

Variable HostState : Type.

(** One intercepted call: the clock reading at the call and the three
    arguments the host passed. *)
Definition Frame : Type := (time_point * (pointer * UINT * UINT))%type.

(** [HookedPresent] called for each frame in turn, with the return codes
    handed back to the host. *)
Fixpoint present_all (p : DX11Hook.Process HostState) (frames : list Frame)
  : option (DX11Hook.Process HostState * list HRESULT) :=
  match frames with
  | [] => Some (p, [])
  | (now, (pSwapChain, SyncInterval, Flags)) :: rest =>
      match DX11Hook.HookedPresent p now pSwapChain SyncInterval Flags with
      | None => None
      | Some (p1, code) =>
          match present_all p1 rest with
          | None => None
          | Some (p2, codes) => Some (p2, code :: codes)
          end
      end
  end.

(** What the host would get calling the original entry point itself. *)
Fixpoint original_all (present : DX11Hook.PresentFunc HostState)
    (s : HostState) (calls : list (pointer * UINT * UINT))
  : HostState * list HRESULT :=
  match calls with
  | [] => (s, [])
  | (pSwapChain, SyncInterval, Flags) :: rest =>
      let '(s1, code) := present pSwapChain SyncInterval Flags s in
      let '(s2, codes) := original_all present s1 rest in
      (s2, code :: codes)
  end.

End Host.

Arguments present_all {HostState}.
Arguments original_all {HostState}.

End Frames.

(** ** main.cpp as a whole: runs of calls on the exported surface *)

Module Surface.

Section Host.

Variable HostState : Type.

Definition DLL_PROCESS_DETACH : Z := 0.
Definition DLL_PROCESS_ATTACH : Z := 1.

Definition VERSION : string := "1.0.0".

Definition GetVersion (g : Exports.Globals HostState) : string := VERSION.

(** [DllMain]: a process detach shuts the library down; every reason
    answers [TRUE]. *)
Definition DllMain (g : Exports.Globals HostState) (ul_reason_for_call : Z)
  : Exports.Globals HostState * bool :=
  if ul_reason_for_call =? DLL_PROCESS_ATTACH then (g, true)
  else if ul_reason_for_call =? DLL_PROCESS_DETACH then
    (Exports.Shutdown g, true)
  else (g, true).

(** What can happen to the library's globals: a call of [DllMain], a call
    of an exported function that writes, or an intercepted frame (the part of
    [HookedPresent] that touches the singleton). *)
Inductive Call : Type :=
| DllMain_ (ul_reason_for_call : Z)
| Initialize_ (created : DX11Hook.CreateResult HostState) (now : time_point)
| Shutdown_
| SetMetrics_ (cpu_usage cpu_temp gpu_usage gpu_temp : F32.float)
    (ram_mb vram_mb : Z)
| SetOverlayVisible_ (visible : bool)
| SetOverlayPosition_ (x y : Z)
| SetOverlayOpacity_ (opacity : F32.float)
| SetOverlayColor_ (r g b a : F32.float)
| SetOverlayFontSize_ (size : Z)
| SetOverlayShowFPS_ (show : bool)
| SetOverlayShowCPU_ (show : bool)
| SetOverlayShowGPU_ (show : bool)
| SetOverlayShowRAM_ (show : bool)
| SetOverlayShowTemps_ (show : bool)
| Frame_ (now : time_point).

Definition perform (g : Exports.Globals HostState) (c : Call)
  : Exports.Globals HostState :=
  match c with
  | DllMain_ reason => fst (DllMain g reason)
  | Initialize_ created now => fst (Exports.Initialize g created now)
  | Shutdown_ => Exports.Shutdown g
  | SetMetrics_ cu ct gu gt ram vram => Exports.SetMetrics g cu ct gu gt ram vram
  | SetOverlayVisible_ v => Exports.SetOverlayVisible g v
  | SetOverlayPosition_ x y => Exports.SetOverlayPosition g x y
  | SetOverlayOpacity_ op => Exports.SetOverlayOpacity g op
  | SetOverlayColor_ r g_ b a => Exports.SetOverlayColor g r g_ b a
  | SetOverlayFontSize_ size => Exports.SetOverlayFontSize g size
  | SetOverlayShowFPS_ show => Exports.SetOverlayShowFPS g show
  | SetOverlayShowCPU_ show => Exports.SetOverlayShowCPU g show
  | SetOverlayShowGPU_ show => Exports.SetOverlayShowGPU g show
  | SetOverlayShowRAM_ show => Exports.SetOverlayShowRAM g show
  | SetOverlayShowTemps_ show => Exports.SetOverlayShowTemps g show
  | Frame_ now =>
      Exports.mk (DX11Hook.CalculateFPS (Exports.hook g) now)
        (Exports.overlay g) (Exports.g_metrics g) (Exports.g_config g)
  end.

Definition perform_all (g : Exports.Globals HostState) (calls : list Call)
  : Exports.Globals HostState :=
  fold_left perform calls g.

(** The calls that set the overlay's visibility, position or opacity. *)
Definition sets_placement (c : Call) : bool :=
  match c with
  | SetOverlayVisible_ _ | SetOverlayPosition_ _ _ | SetOverlayOpacity_ _ =>
      true
  | _ => false
  end.

(** The library as loaded, after any run of calls. *)
Definition reachable (g : Exports.Globals HostState) : Prop :=
  exists calls, g = perform_all (Exports.globals0 HostState) calls.

(** The telemetry held by the hook is the telemetry held in [g_metrics]. *)
Definition metrics_agree (g : Exports.Globals HostState) : Prop :=
  DX11Hook.cpuUsage (Exports.hook g) = OverlayMetrics.cpuUsage (Exports.g_metrics g) /\
  DX11Hook.cpuTemp (Exports.hook g) = OverlayMetrics.cpuTemp (Exports.g_metrics g) /\
  DX11Hook.gpuUsage (Exports.hook g) = OverlayMetrics.gpuUsage (Exports.g_metrics g) /\
  DX11Hook.gpuTemp (Exports.hook g) = OverlayMetrics.gpuTemp (Exports.g_metrics g) /\
  DX11Hook.ramUsage (Exports.hook g) = OverlayMetrics.ramUsage (Exports.g_metrics g) /\
  DX11Hook.vramUsage (Exports.hook g) = OverlayMetrics.vramUsage (Exports.g_metrics g).

(** The configuration held by the overlay is [g_config], and the font
    family and the opacity field of [g_config] are the defaults. *)
Definition config_in_step (g : Exports.Globals HostState) : Prop :=
  ImGuiOverlay.config (Exports.overlay g) = Exports.g_config g /\
  OverlayConfig.fontFamily (Exports.g_config g) =
    OverlayConfig.fontFamily OverlayConfig.default /\
  OverlayConfig.opacity (Exports.g_config g) =
    OverlayConfig.opacity OverlayConfig.default.

End Host.

Arguments GetVersion {HostState}.
Arguments DllMain {HostState}.
Arguments DllMain_ {HostState}.
Arguments Initialize_ {HostState}.
Arguments Shutdown_ {HostState}.
Arguments SetMetrics_ {HostState}.
Arguments SetOverlayVisible_ {HostState}.
Arguments SetOverlayPosition_ {HostState}.
Arguments SetOverlayOpacity_ {HostState}.
Arguments SetOverlayColor_ {HostState}.
Arguments SetOverlayFontSize_ {HostState}.
Arguments SetOverlayShowFPS_ {HostState}.
Arguments SetOverlayShowCPU_ {HostState}.
Arguments SetOverlayShowGPU_ {HostState}.
Arguments SetOverlayShowRAM_ {HostState}.
Arguments SetOverlayShowTemps_ {HostState}.
Arguments Frame_ {HostState}.
Arguments perform {HostState}.
Arguments perform_all {HostState}.
Arguments sets_placement {HostState}.
Arguments reachable {HostState}.
Arguments metrics_agree {HostState}.
Arguments config_in_step {HostState}.

End Surface.

(** ** What [Render] leaves in its buffer *)

Module Written.

Import Printf ImGuiOverlay.

(** The texts [Render] formats, in the order of its [snprintf] calls. *)
Definition pieces (cfg : OverlayConfig.t) (m : OverlayMetrics.t)
  : list string :=
  (if OverlayConfig.showFPS cfg
   then [fps_text (OverlayMetrics.fps m)] else [])
  ++
  (if OverlayConfig.showCPU cfg
   then [usage_text "CPU" (OverlayMetrics.cpuUsage m)]
        ++ (if OverlayConfig.showTemps cfg
            then [temp_text (OverlayMetrics.cpuTemp m)] else [])
        ++ [nl]
   else [])
  ++
  (if OverlayConfig.showGPU cfg
   then [usage_text "GPU" (OverlayMetrics.gpuUsage m)]
        ++ (if OverlayConfig.showTemps cfg
            then [temp_text (OverlayMetrics.gpuTemp m)] else [])
        ++ [nl]
   else [])
  ++
  (if OverlayConfig.showRAM cfg
   then [mem_text "RAM" (OverlayMetrics.ramUsage m);
         mem_text "VRAM" (OverlayMetrics.vramUsage m)]
   else []).

(** One [snprintf] after the other. *)
Definition append_all (b : TextBuffer) (texts : list string)
  : option TextBuffer :=
  fold_left (fun c text => and_then c (fun b => append b text)) texts (Some b).

(** The texts one after the other. *)
Definition flatten (texts : list string) : string :=
  fold_right String.append EmptyString texts.

(** The buffer holds [text] from its start, [offset] is the length of
    [text], and once a call has been made the text is NUL-terminated. *)
Definition holds_text (b : TextBuffer) (text : string) : Prop :=
  offset b = would_write text /\
  firstn (String.length text) (bytes b) =
    map Some (list_ascii_of_string text) /\
  (calls b <> [] ->
   nth_error (bytes b) (String.length text) = Some (Some NUL)).

End Written.

(** ** More sample values *)

Module MoreSamples.

(** A session: install, configure, push telemetry, a frame, hide, shut
    down, install again. *)
Definition session : list (Surface.Call nat) :=
  [Surface.Initialize_ Samples.created_ok (Samples.ms 1);
   Surface.SetOverlayColor_ F32.lit_1 F32.zero F32.zero F32.lit_1;
   Surface.SetMetrics_ (F32.of_Z 50) (F32.of_Z 65) (F32.of_Z 80)
     (F32.of_Z 70) 8192 4096;
   Surface.Frame_ (Samples.ms 17);
   Surface.SetOverlayOpacity_ F32.lit_0_5;
   Surface.SetOverlayVisible_ false;
   Surface.Shutdown_;
   Surface.Initialize_ Samples.created_ok (Samples.ms 40)].

Definition loaded : Exports.Globals nat :=
  Surface.perform_all (Exports.globals0 nat) session.

(** The overlay, initialized and visible. *)
Definition shown : ImGuiOverlay.t :=
  ImGuiOverlay.Initialize ImGuiOverlay.statics0 0 0.

Definition two_frames : list Frames.Frame :=
  [(Samples.ms 16, (4096, 1, 0)); (Samples.ms 33, (4096, 0, 0))].

Definition memory_only : OverlayConfig.t :=
  OverlayConfig.mk (Printf.char_array 64 "Segoe UI") 14
    OverlayConfig.default_color F32.lit_0_8 false false false true true.

End MoreSamples.

(** * Machine integers *)

Lemma wrap_int_small (z : Z) : INT_MIN <= z <= INT_MAX -> wrap_int z = z.
Proof.
  unfold wrap_int, INT_MIN, INT_MAX. intros Hz.
  rewrite Z.mod_small; lia.
Qed.

(** * Properties of the presentation hook *)

Module HookFacts.

Import DX11Hook Timeline.

Section Host.

Context {HostState : Type}.

Implicit Types (h : DX11Hook.t HostState) (now : time_point)
  (stamps : list time_point).

Lemma CalculateFPS_frameTime h now :
  frameTime (CalculateFPS h now) = elapsed_ms now (lastFrameTime h).
Proof.
  unfold CalculateFPS.
  destruct (F32.geb _ _); reflexivity.
Qed.

Lemma CalculateFPS_lastFrameTime h now :
  lastFrameTime (CalculateFPS h now) = now.
Proof.
  unfold CalculateFPS.
  destruct (F32.geb _ _); reflexivity.
Qed.

Lemma CalculateFPS_originalPresent h now :
  originalPresent (CalculateFPS h now) = originalPresent h.
Proof.
  unfold CalculateFPS.
  destruct (F32.geb _ _); reflexivity.
Qed.

Lemma run_ticks_snoc h stamps now :
  run_ticks h (stamps ++ [now]) = CalculateFPS (run_ticks h stamps) now.
Proof.
  unfold run_ticks. rewrite fold_left_app. reflexivity.
Qed.

Lemma last_cons (l : list time_point) :
  forall a d : time_point, last (a :: l) d = last l a.
Proof.
  induction l as [|b l IH]; intros a d.
  - reflexivity.
  - change (last (a :: b :: l) d) with (last (b :: l) d).
    rewrite (IH b d), (IH b a). reflexivity.
Qed.

(** The stored timestamp after a run is the last clock reading. *)
Lemma run_ticks_lastFrameTime stamps :
  forall h, lastFrameTime (run_ticks h stamps) = last stamps (lastFrameTime h).
Proof.
  induction stamps as [|now rest IH]; intro h.
  - reflexivity.
  - change (run_ticks h (now :: rest))
      with (run_ticks (CalculateFPS h now) rest).
    rewrite IH, CalculateFPS_lastFrameTime, last_cons.
    reflexivity.
Qed.

Lemma last_firstn (stamps : list time_point) :
  forall (j : nat) (t0 : time_point),
    (j <= List.length stamps)%nat ->
    last (firstn j stamps) t0 = nth j (t0 :: stamps) 0.
Proof.
  induction stamps as [|t1 rest IH]; intros j t0 Hj.
  - destruct j; [reflexivity | cbn in Hj; lia].
  - destruct j as [|j]; [reflexivity|].
    cbn [List.length] in Hj.
    specialize (IH j t1 ltac:(lia)).
    change (firstn (S j) (t1 :: rest)) with (t1 :: firstn j rest).
    rewrite last_cons. exact IH.
Qed.

Lemma firstn_succ_snoc (stamps : list time_point) :
  forall j : nat,
    (j < List.length stamps)%nat ->
    firstn (S j) stamps = firstn j stamps ++ [nth j stamps 0].
Proof.
  induction stamps as [|t1 rest IH]; intros j Hj.
  - cbn in Hj. lia.
  - destruct j as [|j]; [reflexivity|].
    cbn [List.length] in Hj.
    change (firstn (S (S j)) (t1 :: rest)) with (t1 :: firstn (S j) rest).
    rewrite IH by lia. reflexivity.
Qed.

(** In any state, a frame changes the published value only when it brings
    the accumulator to the threshold. *)
Lemma GetFPS_changes_only_at_threshold h now :
  GetFPS (CalculateFPS h now) <> GetFPS h ->
  F32.geb (F32.add (fpsAccumulator h) (elapsed_ms now (lastFrameTime h)))
          F32.lit_500 = true.
Proof.
  unfold GetFPS, CalculateFPS.
  destruct (F32.geb _ _); [reflexivity|].
  intro Hchanged. exfalso. apply Hchanged. reflexivity.
Qed.

(** A run that never reaches the threshold only counts and accumulates. *)
Lemma quiet_run stamps :
  forall h,
    0 <= frameCount h ->
    frameCount h + Z.of_nat (List.length stamps) <= INT_MAX ->
    below_threshold (fpsAccumulator h) (lastFrameTime h) stamps = true ->
    currentFPS (run_ticks h stamps) = currentFPS h /\
    frameCount (run_ticks h stamps) = frameCount h + Z.of_nat (List.length stamps) /\
    fpsAccumulator (run_ticks h stamps) =
      accumulate (fpsAccumulator h) (lastFrameTime h) stamps.
Proof.
  induction stamps as [|now rest IH]; intros h Hpos Hmax Hquiet.
  - cbn. repeat split. lia.
  - cbn [below_threshold] in Hquiet.
    apply andb_prop in Hquiet. destruct Hquiet as [Hnow Hrest].
    apply negb_true_iff in Hnow.
    change (run_ticks h (now :: rest))
      with (run_ticks (CalculateFPS h now) rest).
    cbn [List.length] in Hmax.
    assert (Hstep : CalculateFPS h now =
              set_timing h now (currentFPS h)
                (elapsed_ms now (lastFrameTime h))
                (frameCount h + 1)
                (F32.add (fpsAccumulator h)
                   (elapsed_ms now (lastFrameTime h)))).
    { unfold CalculateFPS. rewrite Hnow.
      rewrite wrap_int_small by (unfold INT_MIN, INT_MAX in *; lia).
      reflexivity. }
    rewrite Hstep.
    set (h1 := set_timing h now (currentFPS h)
                 (elapsed_ms now (lastFrameTime h)) (frameCount h + 1)
                 (F32.add (fpsAccumulator h)
                    (elapsed_ms now (lastFrameTime h)))).
    assert (H1 : 0 <= frameCount h1) by (cbn; lia).
    assert (H2 : frameCount h1 + Z.of_nat (List.length rest) <= INT_MAX).
    { subst h1. cbn [set_timing frameCount].
      rewrite Nat2Z.inj_succ in Hmax. lia. }
    destruct (IH h1 H1 H2 Hrest) as (Hfps & Hcount & Hacc).
    rewrite Hfps, Hcount, Hacc.
    cbn [List.length]. rewrite Nat2Z.inj_succ.
    subst h1. cbn [set_timing currentFPS frameCount fpsAccumulator
                   lastFrameTime accumulate].
    repeat split. lia.
Qed.

Lemma below_threshold_firstn stamps :
  forall (acc : F32.float) (last : time_point) (k : nat),
    below_threshold acc last stamps = true ->
    below_threshold acc last (firstn k stamps) = true.
Proof.
  induction stamps as [|now rest IH]; intros acc last k H.
  - destruct k; reflexivity.
  - destruct k as [|k]; [reflexivity|].
    cbn [below_threshold firstn] in *.
    apply andb_prop in H. destruct H as [H1 H2].
    rewrite H1. cbn. apply IH. exact H2.
Qed.

Lemma accumulate_snoc stamps :
  forall (acc : F32.float) (t0 now : time_point),
    accumulate acc t0 (stamps ++ [now]) =
    F32.add (accumulate acc t0 stamps) (elapsed_ms now (last stamps t0)).
Proof.
  induction stamps as [|t1 rest IH]; intros acc t0 now.
  - reflexivity.
  - cbn [app accumulate]. rewrite IH, last_cons. reflexivity.
Qed.

Lemma Initialize_installed h created now :
  initialized h = true -> Initialize h created now = (h, true).
Proof.
  intro Hinit. unfold Initialize. rewrite Hinit. reflexivity.
Qed.

Lemma Initialize_success h created now :
  snd (Initialize h created now) = true ->
  initialized (fst (Initialize h created now)) = true.
Proof.
  unfold Initialize.
  destruct (initialized h) eqn:Hinit; cbn [fst snd].
  - intros _. exact Hinit.
  - destruct (FAILED (hr created)); cbn [fst snd];
      [discriminate | reflexivity].
Qed.

Lemma Initialize_fresh h created now :
  initialized h = false ->
  FAILED (hr created) = false ->
  lastFrameTime (fst (Initialize h created now)) = now /\
  originalPresent (fst (Initialize h created now)) = Some (vtable_8 created) /\
  snd (Initialize h created now) = true.
Proof.
  intros Hinit Hok. unfold Initialize. rewrite Hinit, Hok.
  repeat split.
Qed.

(** C1. For every intercepted presentation call, [HookedPresent] calls the
    captured original [Present] exactly once, with the swap chain, sync
    interval and flags it received, and returns that call's return code;
    this holds for every clock reading and every content of the timing
    fields, so nothing the timing code computes can prevent the forward. *)
Theorem HookedPresent_forwards_once
    (p : Process HostState) now (pSwapChain : pointer)
    (SyncInterval Flags : UINT) (present : PresentFunc HostState) :
  originalPresent (hook p) = Some present ->
  HookedPresent p now pSwapChain SyncInterval Flags =
    Some (mkProcess (CalculateFPS (hook p) now)
            (fst (present pSwapChain SyncInterval Flags (host p)))
            (forwarded p ++ [(pSwapChain, SyncInterval, Flags)]),
          snd (present pSwapChain SyncInterval Flags (host p))).
Proof.
  intro Horig.
  unfold HookedPresent, call_original. cbn [hook host forwarded].
  rewrite CalculateFPS_originalPresent, Horig.
  destruct (present pSwapChain SyncInterval Flags (host p)) as [host' code].
  reflexivity.
Qed.

(** C2. In a window that opens at [h] (counter and accumulator at zero),
    while no frame brings the accumulated frame time to 500 ms the value
    [GetFPS] returns stays the one published before; at the frame where the
    accumulated time first reaches 500 ms it becomes the number of frames
    of the window times 1000 over the accumulated milliseconds, and the
    counter and the accumulator are back at zero.  The number of frames is
    kept within the range of [int]. *)
Theorem fps_published_at_threshold h stamps now :
  window_open h ->
  Z.of_nat (List.length stamps) < INT_MAX ->
  below_threshold F32.zero (lastFrameTime h) stamps = true ->
  (forall k : nat, GetFPS (run_ticks h (firstn k stamps)) = GetFPS h) /\
  (F32.geb (window_ms h (stamps ++ [now])) F32.lit_500 = true ->
     GetFPS (run_ticks h (stamps ++ [now])) =
       F32.div
         (F32.mul (F32.of_Z (Z.of_nat (List.length (stamps ++ [now]))))
                  F32.lit_1000)
         (window_ms h (stamps ++ [now])) /\
     frameCount (run_ticks h (stamps ++ [now])) = 0 /\
     fpsAccumulator (run_ticks h (stamps ++ [now])) = F32.zero) /\
  (F32.geb (window_ms h (stamps ++ [now])) F32.lit_500 = false ->
     GetFPS (run_ticks h (stamps ++ [now])) = GetFPS h /\
     frameCount (run_ticks h (stamps ++ [now])) =
       Z.of_nat (List.length (stamps ++ [now])) /\
     fpsAccumulator (run_ticks h (stamps ++ [now])) =
       window_ms h (stamps ++ [now])).
Proof.
  intros [Hcount Hacc] Hlen Hquiet.
  assert (Hprefix : forall k : nat,
             currentFPS (run_ticks h (firstn k stamps)) = currentFPS h).
  { intro k.
    apply (quiet_run (firstn k stamps) h).
    - lia.
    - rewrite Hcount. pose proof (length_firstn k stamps). lia.
    - rewrite Hacc. apply below_threshold_firstn. exact Hquiet. }
  destruct (quiet_run stamps h) as (Hfps & Hn & Hsum).
  { lia. } { lia. } { rewrite Hacc. exact Hquiet. }
  rewrite Hcount in Hn. rewrite Hacc in Hsum. cbn in Hn.
  assert (Hwin : window_ms h (stamps ++ [now]) =
            F32.add (fpsAccumulator (run_ticks h stamps))
              (elapsed_ms now (lastFrameTime (run_ticks h stamps)))).
  { unfold window_ms. rewrite accumulate_snoc, Hsum, run_ticks_lastFrameTime.
    reflexivity. }
  assert (Hlen1 : Z.of_nat (List.length (stamps ++ [now])) =
            wrap_int (frameCount (run_ticks h stamps) + 1)).
  { rewrite length_app, Nat2Z.inj_add, Hn. cbn [List.length].
    rewrite wrap_int_small; [reflexivity|].
    unfold INT_MIN, INT_MAX in *. lia. }
  split; [exact Hprefix|].
  rewrite run_ticks_snoc, Hlen1, Hwin.
  unfold GetFPS, CalculateFPS.
  split; intro Hgeb; rewrite Hgeb; cbn; auto.
Qed.

(** C3, as the code has it. After a successful [Initialize] at [t0], the
    frame time after the [k]-th tick is the time between the [k]-th clock
    reading and the one before it, in whole microseconds divided by
    [1000.0f]; the reading before the first tick is [t0], the one that
    [Initialize] stored. *)
Theorem frame_time_is_last_delta h created (t0 : time_point) stamps (k : nat) :
  initialized h = false ->
  FAILED (hr created) = false ->
  (1 <= k <= List.length stamps)%nat ->
  GetFrameTime (run_ticks (fst (Initialize h created t0)) (firstn k stamps)) =
    elapsed_ms (nth k (t0 :: stamps) 0) (nth (k - 1) (t0 :: stamps) 0).
Proof.
  intros Hinit Hok Hk.
  destruct (Initialize_fresh h created t0 Hinit Hok) as (Hlast & _ & _).
  destruct k as [|j]; [lia|].
  rewrite firstn_succ_snoc by lia.
  rewrite run_ticks_snoc. unfold GetFrameTime.
  rewrite CalculateFPS_frameTime, run_ticks_lastFrameTime, Hlast.
  rewrite last_firstn by lia.
  replace (S j - 1)%nat with j by lia.
  reflexivity.
Qed.

(** C4, as the code has it. The first tick after a successful [Initialize]
    stores its own clock reading as the last timestamp and reports the time
    elapsed since [Initialize] ran, in whole microseconds divided by
    [1000.0f]. *)
Theorem first_tick_measures_from_install h created (t0 t1 : time_point) :
  initialized h = false ->
  FAILED (hr created) = false ->
  lastFrameTime (CalculateFPS (fst (Initialize h created t0)) t1) = t1 /\
  GetFrameTime (CalculateFPS (fst (Initialize h created t0)) t1) =
    elapsed_ms t1 t0.
Proof.
  intros Hinit Hok.
  destruct (Initialize_fresh h created t0 Hinit Hok) as (Hlast & _ & _).
  unfold GetFrameTime.
  rewrite CalculateFPS_lastFrameTime, CalculateFPS_frameTime, Hlast.
  split; reflexivity.
Qed.

(** C8. Once [Initialize] has returned success, every further call (no
    [Shutdown] in between) returns success at once and leaves the whole
    singleton, captured entry point and timing state included, as it
    was. *)
Theorem Initialize_repeat_is_success h created now
    (calls : list (CreateResult HostState * time_point)) :
  snd (Initialize h created now) = true ->
  Initialize_again (fst (Initialize h created now)) calls =
    (fst (Initialize h created now), repeat true (List.length calls)).
Proof.
  intro Hok. apply Initialize_success in Hok.
  induction calls as [|[created' now'] rest IH].
  - reflexivity.
  - cbn [Initialize_again].
    rewrite (Initialize_installed _ created' now' Hok), IH.
    reflexivity.
Qed.

End Host.

End HookFacts.

(** * Facts about the formatted output *)

Module PrintfFacts.

Import Printf Lines.
Local Open Scope string_scope.

Lemma length_append (a b : string) :
  String.length (a ++ b) = (String.length a + String.length b)%nat.
Proof.
  induction a as [|c a IH]; cbn; [reflexivity | now rewrite IH].
Qed.

Lemma append_assoc (a b c : string) : (a ++ b) ++ c = a ++ (b ++ c).
Proof.
  induction a as [|x a IH]; cbn; [reflexivity | now rewrite IH].
Qed.

Lemma append_empty_r (a : string) : a ++ "" = a.
Proof.
  induction a as [|x a IH]; cbn; [reflexivity | now rewrite IH].
Qed.

Lemma substring_whole (s : string) :
  forall n : nat, (String.length s <= n)%nat -> substring 0 n s = s.
Proof.
  induction s as [|c s IH]; intros n Hn.
  - destruct n; reflexivity.
  - destruct n as [|n]; cbn in Hn; [lia|].
    cbn. rewrite IH by lia. reflexivity.
Qed.

(** A text that fits is not truncated. *)
Lemma truncated_fits (size : Z) (text : string) :
  would_write text < size -> truncated size text = text.
Proof.
  unfold would_write, truncated. intro Hfit.
  apply substring_whole. lia.
Qed.

(** *** Lengths *)

Lemma digits_onto_length (fuel : nat) :
  forall (n : Z) (acc : string) (k : nat),
    (1 <= k)%nat -> 0 <= n < 10 ^ Z.of_nat k ->
    (String.length (digits_onto fuel n acc) <= k + String.length acc)%nat.
Proof.
  induction fuel as [|fuel IH]; intros n acc k Hk Hn.
  - cbn. lia.
  - cbn [digits_onto].
    destruct (Z.ltb_spec n 10) as [Hlt|Hge].
    + cbn. lia.
    + destruct k as [|[|k]]; [lia | cbn in Hn; lia |].
      specialize (IH (n / 10) (String (digit_char (n mod 10)) acc) (S k)).
      cbn [String.length] in IH.
      assert (Hdiv : 0 <= n / 10 < 10 ^ Z.of_nat (S k)).
      { split; [apply Z.div_pos; lia|].
        apply Z.div_lt_upper_bound; [lia|].
        rewrite <- Z.pow_succ_r by lia.
        rewrite <- Nat2Z.inj_succ. apply Hn. }
      specialize (IH ltac:(lia) Hdiv). lia.
Qed.

Lemma decimal_length (n : Z) (k : nat) :
  (1 <= k)%nat -> 0 <= n < 10 ^ Z.of_nat k ->
  (String.length (decimal n) <= k)%nat.
Proof.
  intros Hk Hn. unfold decimal.
  pose proof (digits_onto_length (S (Z.to_nat (Z.log2 n))) n "" k Hk Hn) as H.
  cbn [String.length] in H. lia.
Qed.

Lemma digit_char_value (d : Z) :
  0 <= d < 10 -> Z.of_nat (nat_of_ascii (digit_char d)) - 48 = d.
Proof.
  intro Hd. unfold digit_char.
  rewrite nat_ascii_embedding by lia. lia.
Qed.

(** The fuel of [decimal] is enough: the digits produced denote the number. *)
Lemma digits_onto_value (fuel : nat) :
  forall (n : Z) (acc : string),
    0 <= n < 2 ^ Z.of_nat fuel ->
    digits_value (digits_onto fuel n acc) =
      n * 10 ^ Z.of_nat (String.length acc) + digits_value acc.
Proof.
  induction fuel as [|fuel IH]; intros n acc Hn.
  - cbn [digits_onto]. change (2 ^ Z.of_nat 0) with 1 in Hn.
    replace n with 0 by lia. lia.
  - cbn [digits_onto].
    pose proof (Z.mod_pos_bound n 10 ltac:(lia)) as Hmod.
    pose proof (Z.div_mod n 10 ltac:(lia)) as Hdm.
    destruct (Z.ltb_spec n 10) as [Hlt|Hge].
    + cbn [digits_value].
      rewrite digit_char_value by exact Hmod.
      rewrite Z.mod_small by lia. reflexivity.
    + rewrite IH.
      * cbn [digits_value String.length].
        rewrite digit_char_value by exact Hmod.
        rewrite Nat2Z.inj_succ, Z.pow_succ_r by lia.
        remember (10 ^ Z.of_nat (String.length acc)) as P eqn:HP. clear HP.
        remember (n / 10) as q eqn:Hq. remember (n mod 10) as r eqn:Hr.
        clear Hq Hr. subst n. ring.
      * rewrite Nat2Z.inj_succ, Z.pow_succ_r in Hn by lia.
        split; [apply Z.div_pos; lia|].
        apply Z.div_lt_upper_bound; [lia|].
        remember (2 ^ Z.of_nat fuel) as P eqn:HP. clear HP. lia.
Qed.

Lemma decimal_value (n : Z) : 0 <= n -> digits_value (decimal n) = n.
Proof.
  intro Hn. unfold decimal.
  rewrite digits_onto_value.
  - cbn [String.length digits_value]. change (10 ^ Z.of_nat 0) with 1. lia.
  - split; [exact Hn|].
    rewrite Nat2Z.inj_succ, Z2Nat.id by apply Z.log2_nonneg.
    destruct (Z.eq_dec n 0) as [->|Hnz].
    + cbn. lia.
    + apply Z.log2_spec. lia.
Qed.

Lemma fmt_d_length (z : Z) :
  int_range z -> (String.length (fmt_d z) <= 11)%nat.
Proof.
  unfold int_range, INT_MIN, INT_MAX, fmt_d. intro Hz.
  destruct (Z.ltb_spec z 0) as [Hneg|Hpos].
  - rewrite length_append. cbn [String.length].
    pose proof (decimal_length (- z) 10 ltac:(lia)) as H.
    change (10 ^ Z.of_nat 10) with 10000000000 in H.
    specialize (H ltac:(lia)). lia.
  - pose proof (decimal_length z 10 ltac:(lia)) as H.
    change (10 ^ Z.of_nat 10) with 10000000000 in H.
    specialize (H ltac:(lia)). lia.
Qed.

Lemma digits2_pos_bound (m : positive) :
  Zpos m < 2 ^ Zpos (digits2_pos m).
Proof.
  induction m as [m IH|m IH|]; cbn [digits2_pos].
  - rewrite Pos2Z.inj_succ, Z.pow_succ_r by lia. lia.
  - rewrite Pos2Z.inj_succ, Z.pow_succ_r by lia. lia.
  - cbn. lia.
Qed.

(** A binary32 mantissa has at most 24 bits, and the exponent of a finite
    value is at most 104. *)
Lemma valid_finite (s : bool) (m : positive) (e : Z) :
  F32.valid (S754_finite s m e) = true -> Zpos m < 2 ^ 24 /\ e <= 104.
Proof.
  unfold F32.valid, valid_binary, bounded, canonical_mantissa, fexp, emin,
    F32.prec, F32.emax.
  intro H. apply andb_prop in H. destruct H as [Hcanon Hexp].
  apply Z.eqb_eq in Hcanon. apply Z.leb_le in Hexp.
  split; [|lia].
  pose proof (digits2_pos_bound m) as Hm.
  assert (Hd : Zpos (digits2_pos m) <= 24) by lia.
  eapply Z.lt_le_trans; [exact Hm|].
  apply Z.pow_le_mono_r; lia.
Qed.

Lemma scaled_bound (m : positive) (e : Z) (p : nat) :
  Zpos m < 2 ^ 24 -> e <= 104 ->
  0 <= scaled m e p < 2 ^ 128 * 10 ^ Z.of_nat p.
Proof.
  intros Hm He. unfold scaled.
  assert (Hp : 0 < 10 ^ Z.of_nat p) by (apply Z.pow_pos_nonneg; lia).
  set (num := Zpos m * 10 ^ Z.of_nat p).
  assert (Hnum : 0 < num) by (subst num; lia).
  destruct (Z.leb_spec 0 e) as [Hpos|Hneg].
  - assert (H2e : 0 < 2 ^ e) by (apply Z.pow_pos_nonneg; lia).
    assert (Hme : Zpos m * 2 ^ e < 2 ^ 128).
    { apply Z.lt_le_trans with (2 ^ 24 * 2 ^ e); [nia|].
      rewrite <- Z.pow_add_r by lia.
      apply Z.pow_le_mono_r; lia. }
    subst num.
    generalize dependent (10 ^ Z.of_nat p). intros P HP.
    generalize dependent (2 ^ e). intros E HE HmE.
    split; [nia|].
    replace (Z.pos m * P * E) with ((Z.pos m * E) * P) by ring.
    apply Z.mul_lt_mono_pos_r; assumption.
  - set (d := 2 ^ (- e)).
    assert (Hd : 2 <= d).
    { subst d. change 2 with (2 ^ 1) at 1.
      apply Z.pow_le_mono_r; lia. }
    pose proof (Z.div_mod num d ltac:(lia)) as Hdm.
    pose proof (Z.mod_pos_bound num d ltac:(lia)) as Hr.
    assert (Hq : 0 <= num / d) by (apply Z.div_pos; lia).
    clearbody d.
    assert (Hnum2 : num < 2 ^ 128 * 10 ^ Z.of_nat p).
    { subst num. apply Z.mul_lt_mono_pos_r; [assumption|].
      eapply Z.lt_trans; [exact Hm|]. reflexivity. }
    clearbody num.
    generalize dependent (num / d). intros q Hdm Hq.
    generalize dependent (num mod d). intros r Hdm Hr.
    assert (Hle : q + 1 <= num) by nia.
    remember (2 ^ 128 * 10 ^ Z.of_nat p) as B eqn:HB. clear HB.
    destruct (2 * r ?= d)%Z; [destruct (Z.even q)| |]; lia.
Qed.

(** [scaled] is the exact product when the exponent is not negative, and
    otherwise an integer nearest to the exact quotient. *)
Lemma scaled_nearest (m : positive) (e : Z) (p : nat) :
  (0 <= e -> scaled m e p = Zpos m * 10 ^ Z.of_nat p * 2 ^ e) /\
  (e < 0 ->
   2 * Z.abs (scaled m e p * 2 ^ (- e) - Zpos m * 10 ^ Z.of_nat p)
     <= 2 ^ (- e)).
Proof.
  unfold scaled. split; intro He.
  - destruct (Z.leb_spec 0 e); [reflexivity | lia].
  - destruct (Z.leb_spec 0 e); [lia|].
    set (num := Zpos m * 10 ^ Z.of_nat p).
    set (d := 2 ^ (- e)).
    assert (Hd : 0 < d) by (subst d; apply Z.pow_pos_nonneg; lia).
    pose proof (Z.div_mod num d ltac:(lia)) as Hdm.
    pose proof (Z.mod_pos_bound num d Hd) as Hr.
    clearbody num d.
    remember (num / d) as q eqn:Hq. remember (num mod d) as r eqn:Hrr.
    clear Hq Hrr.
    destruct (Z.compare_spec (2 * r) d) as [Heq|Hlt|Hgt];
      [destruct (Z.even q)| |]; nia.
Qed.

(** The formatter on a few values: a tie goes to the even digit, the
    largest binary32 value has 39 digits before the point, and a negative
    value that rounds to zero keeps its sign. *)
Example fmt_f_quarter :
  fmt_f 1 (F32.div (F32.of_Z 1) (F32.of_Z 4)) = "0.2".
Proof. vm_compute. reflexivity. Qed.

Example fmt_f_three_quarters :
  fmt_f 1 (F32.div (F32.of_Z 3) (F32.of_Z 4)) = "0.8".
Proof. vm_compute. reflexivity. Qed.

Example fmt_f_largest :
  fmt_f 1 (SFmax_float F32.prec F32.emax) =
    "340282346638528859811704183484516925440.0".
Proof. vm_compute. reflexivity. Qed.

Example fmt_f_small_negative :
  fmt_f 1 (F32.div (F32.of_Z (-1)) (F32.of_Z 200)) = "-0.0".
Proof. vm_compute. reflexivity. Qed.

Example fmt_d_smallest : fmt_d INT_MIN = "-2147483648".
Proof. vm_compute. reflexivity. Qed.

Lemma sign_length (s : bool) : (String.length (sign s) <= 1)%nat.
Proof. destruct s; cbn; lia. Qed.

Lemma pow2_128_decimal : 2 ^ 128 < 10 ^ Z.of_nat 39.
Proof. vm_compute. reflexivity. Qed.

Lemma fixed_0_length (n : Z) :
  0 <= n < 2 ^ 128 -> (String.length (fixed 0 n) <= 39)%nat.
Proof.
  intro Hn. cbn [fixed frac_digits].
  apply decimal_length; [lia|].
  split; [apply Hn|].
  eapply Z.lt_trans; [apply Hn | exact pow2_128_decimal].
Qed.

Lemma fixed_1_length (n : Z) :
  0 <= n < 2 ^ 128 * 10 -> (String.length (fixed 1 n) <= 41)%nat.
Proof.
  intro Hn. cbn [fixed frac_digits].
  rewrite !length_append. cbn [String.length].
  assert (Hdiv : 0 <= n / 10 < 10 ^ Z.of_nat 39).
  { split; [apply Z.div_pos; lia|].
    apply Z.div_lt_upper_bound; [lia|].
    pose proof pow2_128_decimal as Hpow.
    remember (10 ^ Z.of_nat 39) as T eqn:HT. clear HT.
    remember (2 ^ 128) as U eqn:HU. clear HU. lia. }
  pose proof (decimal_length (n / 10) 39 ltac:(lia) Hdiv). lia.
Qed.

(** [%.1f] of a binary32 value: at most a sign, 39 digits, the point and
    one decimal. *)
Lemma fmt_f_1_length (x : F32.float) :
  F32.valid x = true -> (String.length (fmt_f 1 x) <= 42)%nat.
Proof.
  intro Hx. destruct x as [s|s| |s m e]; cbn [fmt_f].
  - destruct s; cbn; lia.
  - destruct s; cbn; lia.
  - cbn; lia.
  - destruct (valid_finite s m e Hx) as [Hm He].
    pose proof (scaled_bound m e 1 Hm He) as Hs.
    change (10 ^ Z.of_nat 1) with 10 in Hs.
    rewrite length_append.
    pose proof (sign_length s).
    pose proof (fixed_1_length (scaled m e 1) Hs). lia.
Qed.

(** [%.0f] of a binary32 value: at most a sign and 39 digits. *)
Lemma fmt_f_0_length (x : F32.float) :
  F32.valid x = true -> (String.length (fmt_f 0 x) <= 40)%nat.
Proof.
  intro Hx. destruct x as [s|s| |s m e]; cbn [fmt_f].
  - destruct s; cbn; lia.
  - destruct s; cbn; lia.
  - cbn; lia.
  - destruct (valid_finite s m e Hx) as [Hm He].
    pose proof (scaled_bound m e 0 Hm He) as Hs.
    change (10 ^ Z.of_nat 0) with 1 in Hs. rewrite Z.mul_1_r in Hs.
    rewrite length_append.
    pose proof (sign_length s).
    pose proof (fixed_0_length (scaled m e 0) Hs). lia.
Qed.

(** *** Line feeds *)

Lemma nl_free_append (a b : string) :
  nl_free (a ++ b) = nl_free a && nl_free b.
Proof.
  induction a as [|c a IH]; cbn; [reflexivity|].
  rewrite IH. apply andb_assoc.
Qed.

Lemma digit_char_not_LF (n : Z) :
  Ascii.eqb (digit_char (n mod 10)) LF = false.
Proof.
  pose proof (Z.mod_pos_bound n 10 ltac:(lia)) as Hd.
  set (d := n mod 10) in *.
  assert (Hcases : d = 0 \/ d = 1 \/ d = 2 \/ d = 3 \/ d = 4 \/
                   d = 5 \/ d = 6 \/ d = 7 \/ d = 8 \/ d = 9) by lia.
  repeat (destruct Hcases as [->|Hcases]; [reflexivity|]).
  subst d. rewrite Hcases. reflexivity.
Qed.

Lemma digits_onto_nl_free (fuel : nat) :
  forall (n : Z) (acc : string),
    nl_free acc = true -> nl_free (digits_onto fuel n acc) = true.
Proof.
  induction fuel as [|fuel IH]; intros n acc Hacc; cbn [digits_onto].
  - exact Hacc.
  - assert (Hacc' : nl_free (String (digit_char (n mod 10)) acc) = true).
    { cbn [nl_free]. rewrite digit_char_not_LF, Hacc. reflexivity. }
    destruct (n <? 10)%Z; [exact Hacc' | apply IH; exact Hacc'].
Qed.

Lemma decimal_nl_free (n : Z) : nl_free (decimal n) = true.
Proof. apply digits_onto_nl_free. reflexivity. Qed.

Lemma fmt_d_nl_free (z : Z) : nl_free (fmt_d z) = true.
Proof.
  unfold fmt_d. destruct (z <? 0)%Z.
  - rewrite nl_free_append, decimal_nl_free. reflexivity.
  - apply decimal_nl_free.
Qed.

Lemma frac_digits_nl_free (p : nat) :
  forall (n : Z) (acc : string),
    nl_free acc = true -> nl_free (snd (frac_digits p n acc)) = true.
Proof.
  induction p as [|p IH]; intros n acc Hacc; cbn [frac_digits].
  - exact Hacc.
  - apply IH. cbn [nl_free]. rewrite digit_char_not_LF, Hacc. reflexivity.
Qed.

Lemma fixed_nl_free (p : nat) (n : Z) : nl_free (fixed p n) = true.
Proof.
  unfold fixed.
  pose proof (frac_digits_nl_free p n "" eq_refl) as Hfr.
  destruct (frac_digits p n "") as [ip fr]. cbn [snd] in Hfr.
  destruct p.
  - apply decimal_nl_free.
  - rewrite !nl_free_append, decimal_nl_free, Hfr. reflexivity.
Qed.

Lemma fmt_f_nl_free (p : nat) (x : F32.float) : nl_free (fmt_f p x) = true.
Proof.
  destruct x as [s|s| |s m e]; cbn [fmt_f].
  - rewrite nl_free_append, fixed_nl_free. destruct s; reflexivity.
  - destruct s; reflexivity.
  - reflexivity.
  - rewrite nl_free_append, fixed_nl_free. destruct s; reflexivity.
Qed.

(** *** Lines *)


Lemma join_lines_app (a b : list string) :
  join_lines (a ++ b)%list = join_lines a ++ join_lines b.
Proof.
  induction a as [|l a IH]; cbn [join_lines List.app]; [reflexivity|].
  rewrite IH, !append_assoc. reflexivity.
Qed.

Lemma split_lines_line (l rest : string) :
  nl_free l = true ->
  split_lines (l ++ nl ++ rest) = (l :: split_lines rest)%list.
Proof.
  induction l as [|c l IH]; intro Hfree.
  - reflexivity.
  - cbn [nl_free] in Hfree. apply andb_prop in Hfree.
    destruct Hfree as [Hc Hl]. apply negb_true_iff in Hc.
    cbn [append split_lines]. rewrite Hc, (IH Hl). reflexivity.
Qed.

Lemma split_join_lines (ls : list string) :
  Forall (fun l => nl_free l = true) ls ->
  split_lines (join_lines ls) = ls.
Proof.
  induction 1 as [|l rest Hl _ IH]; cbn [join_lines].
  - reflexivity.
  - rewrite split_lines_line by exact Hl. rewrite IH. reflexivity.
Qed.

End PrintfFacts.

(** * Properties of the overlay *)

Module OverlayFacts.

Import Printf Lines ImGuiOverlay Bounds PrintfFacts.
Local Open Scope string_scope.

(** *** The pieces fit their buffers *)

Lemma fps_text_length (x : F32.float) :
  F32.valid x = true -> would_write (fps_text x) <= 48.
Proof.
  intro Hx. unfold would_write, fps_text.
  rewrite !length_append. cbn [String.length nl].
  pose proof (fmt_f_1_length x Hx). lia.
Qed.

Lemma usage_text_length (label : string) (x : F32.float) :
  String.length label = 3%nat -> F32.valid x = true ->
  would_write (usage_text label x) <= 48.
Proof.
  intros Hl Hx. unfold would_write, usage_text.
  rewrite !length_append, Hl. cbn [String.length].
  pose proof (fmt_f_1_length x Hx). lia.
Qed.

Lemma temp_text_length (x : F32.float) :
  F32.valid x = true -> would_write (temp_text x) <= 46.
Proof.
  intro Hx. unfold would_write, temp_text.
  rewrite !length_append.
  change (String.length " (") with 2%nat.
  change (String.length "°C)") with 4%nat.
  pose proof (fmt_f_0_length x Hx). lia.
Qed.

Lemma mem_text_length (label : string) (mb : Z) :
  (String.length label <= 4)%nat -> int_range mb ->
  would_write (mem_text label mb) <= 20 + Z.of_nat (String.length label) - 3.
Proof.
  intros Hl Hmb. unfold would_write, mem_text.
  rewrite !length_append. cbn [String.length nl].
  pose proof (fmt_d_length mb Hmb). lia.
Qed.

Lemma via_buf_fits (text : string) :
  would_write text < 64 -> via_buf text = text.
Proof. apply truncated_fits. Qed.

(** *** GetRenderedText *)

Lemma usage_text_line (label : string) (x : F32.float) (show : bool)
    (temp : F32.float) :
  usage_line label x show temp =
    usage_text label x ++ (if show then temp_text temp else "").
Proof.
  unfold usage_line, usage_text, temp_suffix, temp_text.
  rewrite !append_assoc. reflexivity.
Qed.

Lemma GetRenderedText_join (o : ImGuiOverlay.t) (cfg : OverlayConfig.t)
    (m : OverlayMetrics.t) :
  OverlayMetrics.wf m ->
  GetRenderedText (SetConfig o cfg) m = join_lines (map snd (composeText cfg m)).
Proof.
  intros (Hfps & Hcu & Hct & Hgu & Hgt & Hram & Hvram).
  unfold GetRenderedText, SetConfig, set_config. cbn [config].
  rewrite (via_buf_fits (fps_text _))
    by (pose proof (fps_text_length _ Hfps); lia).
  rewrite (via_buf_fits (usage_text "CPU" _))
    by (pose proof (usage_text_length "CPU" _ eq_refl Hcu); lia).
  rewrite (via_buf_fits (usage_text "GPU" _))
    by (pose proof (usage_text_length "GPU" _ eq_refl Hgu); lia).
  rewrite (via_buf_fits (temp_text (OverlayMetrics.cpuTemp m)))
    by (pose proof (temp_text_length _ Hct); lia).
  rewrite (via_buf_fits (temp_text (OverlayMetrics.gpuTemp m)))
    by (pose proof (temp_text_length _ Hgt); lia).
  rewrite (via_buf_fits (mem_text "RAM" _))
    by (pose proof (mem_text_length "RAM" _ ltac:(cbn; lia) Hram);
        cbn [String.length] in *; lia).
  rewrite (via_buf_fits (mem_text "VRAM" _))
    by (pose proof (mem_text_length "VRAM" _ ltac:(cbn; lia) Hvram);
        cbn [String.length] in *; lia).
  unfold composeText.
  rewrite !map_app, !join_lines_app.
  destruct (OverlayConfig.showFPS cfg), (OverlayConfig.showCPU cfg),
    (OverlayConfig.showGPU cfg), (OverlayConfig.showRAM cfg);
    cbn [map snd join_lines];
    rewrite ?usage_text_line;
    destruct (OverlayConfig.showTemps cfg);
    unfold fps_text, fps_line, mem_text, mem_line;
    rewrite ?append_assoc, ?append_empty_r; cbn [append];
    rewrite ?append_assoc, ?append_empty_r; reflexivity.
Qed.

Lemma line_nl_free_fps (x : F32.float) : nl_free (fps_line x) = true.
Proof.
  unfold fps_line. rewrite nl_free_append, fmt_f_nl_free. reflexivity.
Qed.

Lemma line_nl_free_usage (label : string) (x : F32.float) (show : bool)
    (temp : F32.float) :
  nl_free label = true -> nl_free (usage_line label x show temp) = true.
Proof.
  intro Hl. unfold usage_line, temp_suffix.
  rewrite !nl_free_append, Hl, fmt_f_nl_free.
  destruct show; [|reflexivity].
  rewrite !nl_free_append, fmt_f_nl_free. reflexivity.
Qed.

Lemma line_nl_free_mem (label : string) (mb : Z) :
  nl_free label = true -> nl_free (mem_line label mb) = true.
Proof.
  intro Hl. unfold mem_line.
  rewrite !nl_free_append, Hl, fmt_d_nl_free. reflexivity.
Qed.

Lemma composeText_nl_free (cfg : OverlayConfig.t) (m : OverlayMetrics.t) :
  Forall (fun l => nl_free l = true) (map snd (composeText cfg m)).
Proof.
  unfold composeText. rewrite !map_app.
  repeat (apply Forall_app; split);
    match goal with
    | |- context [if ?c then _ else _] => destruct c
    end;
    cbn [map snd];
    repeat (apply Forall_cons || apply Forall_nil);
    auto using line_nl_free_fps, line_nl_free_usage, line_nl_free_mem.
Qed.

Lemma rendered_lines_compose (o : ImGuiOverlay.t) (cfg : OverlayConfig.t)
    (m : OverlayMetrics.t) :
  OverlayMetrics.wf m ->
  rendered_lines o cfg m = map snd (composeText cfg m).
Proof.
  intro Hm. unfold rendered_lines.
  rewrite GetRenderedText_join by exact Hm.
  apply split_join_lines, composeText_nl_free.
Qed.

(** *** Switching one flag off, on the specification's side *)

Ltac flags cfg :=
  destruct cfg as [family size rgba alpha fps cpu gpu ram temps];
  destruct fps, cpu, gpu, ram, temps; reflexivity.

Lemma composeText_hide_FPS (cfg : OverlayConfig.t) (m : OverlayMetrics.t) :
  composeText (OverlayConfig.set_showFPS cfg false) m =
    without FPS (composeText cfg m).
Proof. flags cfg. Qed.

Lemma composeText_hide_CPU (cfg : OverlayConfig.t) (m : OverlayMetrics.t) :
  composeText (OverlayConfig.set_showCPU cfg false) m =
    without CPU (composeText cfg m).
Proof. flags cfg. Qed.

Lemma composeText_hide_GPU (cfg : OverlayConfig.t) (m : OverlayMetrics.t) :
  composeText (OverlayConfig.set_showGPU cfg false) m =
    without GPU (composeText cfg m).
Proof. flags cfg. Qed.

Lemma composeText_hide_RAM (cfg : OverlayConfig.t) (m : OverlayMetrics.t) :
  composeText (OverlayConfig.set_showRAM cfg false) m =
    without VRAM (without RAM (composeText cfg m)).
Proof. flags cfg. Qed.

Lemma composeText_hide_temps (cfg : OverlayConfig.t) (m : OverlayMetrics.t) :
  map snd (composeText cfg m) =
    map (with_temps (OverlayConfig.showTemps cfg) m)
        (composeText (OverlayConfig.set_showTemps cfg false) m).
Proof.
  destruct cfg as [family size rgba alpha fps cpu gpu ram temps].
  unfold composeText, with_temps, usage_line.
  cbn [OverlayConfig.set_showTemps OverlayConfig.showFPS
       OverlayConfig.showCPU OverlayConfig.showGPU OverlayConfig.showRAM
       OverlayConfig.showTemps OverlayConfig.fontFamily
       OverlayConfig.fontSize OverlayConfig.color OverlayConfig.opacity].
  destruct fps, cpu, gpu, ram; cbn [map List.app fst snd temp_suffix];
    rewrite ?append_assoc, ?append_empty_r; cbn [append];
    rewrite ?append_assoc, ?append_empty_r; reflexivity.
Qed.

Lemma composeText_no_blank (cfg : OverlayConfig.t) (m : OverlayMetrics.t) :
  Forall (fun l => l <> "") (map snd (composeText cfg m)).
Proof.
  unfold composeText. rewrite !map_app.
  repeat (apply Forall_app; split);
    match goal with
    | |- context [if ?c then _ else _] => destruct c
    end;
    cbn [map snd];
    repeat (apply Forall_cons || apply Forall_nil);
    discriminate.
Qed.

(** C5. The text [GetRenderedText] composes has exactly the lines of
    [composeText], in the fixed order FPS, CPU, GPU, RAM, VRAM, each under
    its flag and none of them blank.  Switching [showFPS], [showCPU] or
    [showGPU] off removes that line and no other; [showRAM] removes the RAM
    and VRAM lines together; [showTemps] removes only the temperature
    suffixes of the CPU and GPU lines.  The lines that stay keep their
    order. *)
Theorem overlay_lines_follow_flags (o : ImGuiOverlay.t)
    (cfg : OverlayConfig.t) (m : OverlayMetrics.t) :
  OverlayMetrics.wf m ->
  GetRenderedText (SetConfig o cfg) m =
    join_lines (map snd (composeText cfg m)) /\
  rendered_lines o cfg m = map snd (composeText cfg m) /\
  Forall (fun l => l <> "") (rendered_lines o cfg m) /\
  rendered_lines o (OverlayConfig.set_showFPS cfg false) m =
    map snd (without FPS (composeText cfg m)) /\
  rendered_lines o (OverlayConfig.set_showCPU cfg false) m =
    map snd (without CPU (composeText cfg m)) /\
  rendered_lines o (OverlayConfig.set_showGPU cfg false) m =
    map snd (without GPU (composeText cfg m)) /\
  rendered_lines o (OverlayConfig.set_showRAM cfg false) m =
    map snd (without VRAM (without RAM (composeText cfg m))) /\
  rendered_lines o cfg m =
    map (with_temps (OverlayConfig.showTemps cfg) m)
        (composeText (OverlayConfig.set_showTemps cfg false) m) /\
  rendered_lines o (OverlayConfig.set_showTemps cfg false) m =
    map snd (composeText (OverlayConfig.set_showTemps cfg false) m).
Proof.
  intro Hm.
  rewrite !rendered_lines_compose by exact Hm.
  rewrite composeText_hide_FPS, composeText_hide_CPU, composeText_hide_GPU,
    composeText_hide_RAM.
  repeat split.
  - apply GetRenderedText_join. exact Hm.
  - apply composeText_no_blank.
  - apply composeText_hide_temps.
Qed.

(** *** Render *)

Lemma length_list_ascii (s : string) :
  List.length (list_ascii_of_string s) = String.length s.
Proof.
  induction s as [|c s IH]; cbn; [reflexivity | now rewrite IH].
Qed.

Lemma substring_length_le (s : string) :
  forall n : nat, (String.length (substring 0 n s) <= n)%nat.
Proof.
  induction s as [|c s IH]; intro n.
  - destruct n; cbn; lia.
  - destruct n as [|n]; cbn; [lia|]. specialize (IH n). lia.
Qed.

Lemma store_length (a : list (option ascii)) (at_ : nat) (cs : list ascii) :
  (at_ + List.length cs <= List.length a)%nat ->
  List.length (store a at_ cs) = List.length a.
Proof.
  intro Hfit. unfold store.
  rewrite !length_app, length_map, length_firstn, length_skipn. lia.
Qed.

Lemma in_bounds_weaken (n n' : Z) (b : TextBuffer) :
  n <= n' -> in_bounds n b -> in_bounds n' b.
Proof.
  intros Hle (Hlen & Hoff & Hcalls). repeat split; try assumption; lia.
Qed.

Lemma buffer0_in_bounds : in_bounds 0 buffer0.
Proof.
  unfold in_bounds, buffer0. cbn [bytes offset calls].
  rewrite repeat_length. repeat split; try lia. constructor.
Qed.

(** One [snprintf] at an offset that leaves room for its text. *)
Lemma append_in_bounds (b : TextBuffer) (text : string) (n l : Z) :
  in_bounds n b -> would_write text <= l -> n + l <= BUFFER_SIZE ->
  exists b', append b text = Some b' /\ in_bounds (n + l) b'.
Proof.
  intros (Hlen & Hoff & Hcalls) Htext Hroom.
  assert (Hww : 0 <= would_write text) by (unfold would_write; lia).
  unfold append.
  assert (Hguard : ((0 <=? offset b) && (offset b <=? BUFFER_SIZE))%Z = true).
  { apply andb_true_intro. split; [apply Z.leb_le | apply Z.leb_le]; lia. }
  rewrite Hguard. eexists. split; [reflexivity|].
  unfold in_bounds. cbn [bytes offset calls].
  split; [|split].
  - rewrite store_length; [exact Hlen|]. rewrite Hlen.
    destruct (Z.eqb_spec (BUFFER_SIZE - offset b) 0) as [Hzero|Hsome].
    + cbn [List.length]. lia.
    + rewrite length_app, length_list_ascii. cbn [List.length].
      unfold truncated.
      pose proof (substring_length_le text
                    (Z.to_nat (BUFFER_SIZE - offset b - 1))).
      lia.
  - unfold BUFFER_SIZE in *.
    rewrite wrap_int_small;
      [lia | unfold INT_MIN, INT_MAX; lia].
  - apply Forall_app. split; [exact Hcalls|].
    constructor; [|constructor].
    unfold call_in_bounds. cbn [fst snd]. lia.
Qed.

Lemma stage_in_bounds (cond : bool) (b : TextBuffer) (text : string)
    (n l : Z) :
  in_bounds n b -> would_write text <= l -> n + l <= BUFFER_SIZE ->
  exists b', (if cond then append b text else Some b) = Some b' /\
             in_bounds (n + l) b'.
Proof.
  intros Hb Htext Hroom. destruct cond.
  - apply append_in_bounds; assumption.
  - exists b. split; [reflexivity|].
    apply (in_bounds_weaken n); [|exact Hb].
    unfold would_write in Htext. lia.
Qed.

(** The CPU and GPU blocks: usage, optional temperature, line feed. *)
Lemma usage_block_in_bounds (show temps : bool) (label : string)
    (x temp : F32.float) (b : TextBuffer) (n : Z) :
  String.length label = 3%nat ->
  F32.valid x = true -> F32.valid temp = true ->
  in_bounds n b -> n + 95 <= BUFFER_SIZE ->
  exists b',
    (if show then
       and_then
         (and_then (append b (usage_text label x))
            (fun b => if temps then append b (temp_text temp) else Some b))
         (fun b => append b nl)
     else Some b) = Some b' /\
    in_bounds (n + 95) b'.
Proof.
  intros Hl Hx Ht Hb Hroom. destruct show.
  - destruct (append_in_bounds b (usage_text label x) n 48 Hb)
      as (b1 & -> & Hb1);
      [apply usage_text_length; assumption | lia |].
    cbn [and_then].
    destruct (stage_in_bounds temps b1 (temp_text temp) (n + 48) 46 Hb1)
      as (b2 & -> & Hb2);
      [apply temp_text_length; assumption | lia |].
    cbn [and_then].
    destruct (append_in_bounds b2 nl (n + 48 + 46) 1 Hb2)
      as (b3 & -> & Hb3); [cbn; lia | lia |].
    exists b3. split; [reflexivity|].
    replace (n + 95) with (n + 48 + 46 + 1) by lia. exact Hb3.
  - exists b. split; [reflexivity|].
    apply (in_bounds_weaken n); [lia | exact Hb].
Qed.

(** The text-building part of [Render] never leaves the buffer. *)
Lemma build_text_in_bounds (cfg : OverlayConfig.t) (m : OverlayMetrics.t) :
  OverlayMetrics.wf m ->
  exists b, build_text cfg m = Some b /\ in_bounds 279 b.
Proof.
  intros (Hfps & Hcu & Hct & Hgu & Hgt & Hram & Hvram).
  unfold build_text. cbn [and_then].
  destruct (stage_in_bounds (OverlayConfig.showFPS cfg) buffer0
              (fps_text (OverlayMetrics.fps m)) 0 48 buffer0_in_bounds)
    as (b1 & -> & Hb1);
    [apply fps_text_length; assumption | unfold BUFFER_SIZE; lia |].
  cbn [and_then].
  destruct (usage_block_in_bounds (OverlayConfig.showCPU cfg)
              (OverlayConfig.showTemps cfg) "CPU"
              (OverlayMetrics.cpuUsage m) (OverlayMetrics.cpuTemp m)
              b1 (0 + 48) eq_refl Hcu Hct Hb1)
    as (b2 & -> & Hb2); [unfold BUFFER_SIZE; lia|].
  cbn [and_then].
  destruct (usage_block_in_bounds (OverlayConfig.showGPU cfg)
              (OverlayConfig.showTemps cfg) "GPU"
              (OverlayMetrics.gpuUsage m) (OverlayMetrics.gpuTemp m)
              b2 (0 + 48 + 95) eq_refl Hgu Hgt Hb2)
    as (b3 & -> & Hb3); [unfold BUFFER_SIZE; lia|].
  cbn [and_then].
  destruct (OverlayConfig.showRAM cfg).
  - destruct (append_in_bounds b3
                (mem_text "RAM" (OverlayMetrics.ramUsage m))
                (0 + 48 + 95 + 95) 20 Hb3)
      as (b4 & -> & Hb4);
      [ pose proof (mem_text_length "RAM" _ ltac:(cbn; lia) Hram) as H;
        cbn [String.length] in H; lia
      | unfold BUFFER_SIZE; lia |].
    cbn [and_then].
    destruct (append_in_bounds b4
                (mem_text "VRAM" (OverlayMetrics.vramUsage m))
                (0 + 48 + 95 + 95 + 20) 21 Hb4)
      as (b5 & -> & Hb5);
      [ pose proof (mem_text_length "VRAM" _ ltac:(cbn; lia) Hvram) as H;
        cbn [String.length] in H; lia
      | unfold BUFFER_SIZE; lia |].
    exists b5. split; [reflexivity | exact Hb5].
  - exists b3. split; [reflexivity|].
    apply (in_bounds_weaken (0 + 48 + 95 + 95)); [lia | exact Hb3].
Qed.

(** C9. For binary32 metrics and 32-bit memory figures, under every
    configuration, [Render] has a defined result, and when it builds the
    text every [snprintf] call is made at an offset between 0 and 512 with
    the rest of the buffer as its size, the buffer keeps its 512 bytes, and
    the final offset is at most 279. *)
Theorem Render_stays_in_buffer (o : ImGuiOverlay.t) (m : OverlayMetrics.t) :
  OverlayMetrics.wf m ->
  exists r, Render o m = Some (o, r) /\ rendered_in_bounds r.
Proof.
  intro Hm. unfold Render.
  destruct (negb (isVisible o) || negb (initialized o)).
  - exists Skipped. split; [reflexivity | exact I].
  - destruct (build_text_in_bounds (config o) m Hm) as (b & -> & Hb).
    exists (Built b). split; [reflexivity | exact Hb].
Qed.

(** C7. When the overlay is hidden or the compositor is not initialized,
    [Render] returns at once and leaves every static member as it was;
    and for any metrics a [float] and an [int] can hold, [Render] returns
    normally with the static members unchanged. *)
Theorem Render_noop_when_hidden (o : ImGuiOverlay.t) (m : OverlayMetrics.t) :
  (isVisible o = false \/ initialized o = false ->
   Render o m = Some (o, Skipped)) /\
  (OverlayMetrics.wf m -> exists r, Render o m = Some (o, r)).
Proof.
  split.
  - intros [Hhidden|Huninit]; unfold Render.
    + rewrite Hhidden. reflexivity.
    + rewrite Huninit, orb_true_r. reflexivity.
  - intro Hm. unfold Render.
    destruct (negb (isVisible o) || negb (initialized o)).
    + exists Skipped. reflexivity.
    + destruct (build_text_in_bounds (config o) m Hm) as (b & -> & _).
      exists (Built b). reflexivity.
Qed.

(** *** Initialize *)

Lemma Initialize_initialized (o : ImGuiOverlay.t) (device context : pointer) :
  initialized o = true -> Initialize o device context = o.
Proof.
  intro Hinit. unfold Initialize. rewrite Hinit. reflexivity.
Qed.

Lemma Initialize_defaults (o : ImGuiOverlay.t) (device context : pointer) :
  initialized o = false ->
  let c := config (Initialize o device context) in
  OverlayConfig.fontSize c = 14 /\
  c_str (OverlayConfig.fontFamily c) = "Segoe UI" /\
  OverlayConfig.color c = OverlayConfig.default_color /\
  OverlayConfig.showFPS c = true /\
  OverlayConfig.showCPU c = true /\
  OverlayConfig.showGPU c = true /\
  OverlayConfig.showRAM c = true /\
  OverlayConfig.showTemps c = true /\
  OverlayConfig.opacity c = OverlayConfig.opacity (config o) /\
  initialized (Initialize o device context) = true.
Proof.
  intro Hinit. unfold Initialize. rewrite Hinit.
  cbn. repeat split.
Qed.

Lemma cpu_line_50_65 :
  usage_line "CPU" (F32.of_Z 50) true (F32.of_Z 65) = "CPU: 50.0% (65°C)".
Proof. vm_compute. reflexivity. Qed.

Lemma gpu_line_80_70 :
  usage_line "GPU" (F32.of_Z 80) true (F32.of_Z 70) = "GPU: 80.0% (70°C)".
Proof. vm_compute. reflexivity. Qed.

Lemma ram_line_8192 : mem_line "RAM" 8192 = "RAM: 8192 MB".
Proof. vm_compute. reflexivity. Qed.

Lemma vram_line_4096 : mem_line "VRAM" 4096 = "VRAM: 4096 MB".
Proof. vm_compute. reflexivity. Qed.

Section Host.

Context {HostState : Type}.

(** C10. While the compositor is not initialized, whatever configuration
    [SetConfig] stored, directly or through the exported setters, the
    first [Initialize] puts the font size, the font family, the colour
    and the five visibility flags back to their defaults (the opacity
    field is left alone).  A further [Initialize] changes nothing: on any
    initialized overlay it is the identity, so whatever configuration
    [SetConfig] stores after the first [Initialize] is still there after
    the next one. *)
Theorem Initialize_discards_config (g : Exports.Globals HostState)
    (cfg : OverlayConfig.t) (r g_ b a : F32.float) (show : bool)
    (device context device' context' : pointer) :
  initialized (Exports.overlay g) = false ->
  (let o1 := Initialize (SetConfig (Exports.overlay g) cfg) device context in
   OverlayConfig.fontSize (config o1) = 14 /\
   c_str (OverlayConfig.fontFamily (config o1)) = "Segoe UI" /\
   OverlayConfig.color (config o1) = OverlayConfig.default_color /\
   OverlayConfig.showFPS (config o1) = true /\
   OverlayConfig.showCPU (config o1) = true /\
   OverlayConfig.showGPU (config o1) = true /\
   OverlayConfig.showRAM (config o1) = true /\
   OverlayConfig.showTemps (config o1) = true /\
   OverlayConfig.opacity (config o1) = OverlayConfig.opacity cfg /\
   Initialize o1 device' context' = o1 /\
   (forall cfg' : OverlayConfig.t,
       Initialize (SetConfig o1 cfg') device' context' = SetConfig o1 cfg' /\
       config (Initialize (SetConfig o1 cfg') device' context') = cfg')) /\
  (let g1 := Exports.SetOverlayShowFPS
               (Exports.SetOverlayColor g r g_ b a) show in
   let o1 := Initialize (Exports.overlay g1) device context in
   OverlayConfig.color (config (Exports.overlay g1)) = (r, g_, b, a) /\
   OverlayConfig.showFPS (config (Exports.overlay g1)) = show /\
   OverlayConfig.color (config o1) = OverlayConfig.default_color /\
   OverlayConfig.showFPS (config o1) = true) /\
  (forall o' : ImGuiOverlay.t,
      initialized o' = true -> Initialize o' device' context' = o').
Proof.
  intro Hinit. split; [|split].
  - pose proof (Initialize_defaults (SetConfig (Exports.overlay g) cfg)
                  device context Hinit) as H.
    cbn zeta in H |- *.
    destruct H as (H1 & H2 & H3 & H4 & H5 & H6 & H7 & H8 & H9 & H10).
    repeat split; try assumption.
    + apply Initialize_initialized. exact H10.
    + apply Initialize_initialized. exact H10.
    + rewrite Initialize_initialized by exact H10. reflexivity.
  - cbn zeta.
    set (g1 := Exports.SetOverlayShowFPS
                 (Exports.SetOverlayColor g r g_ b a) show).
    assert (Hinit1 : initialized (Exports.overlay g1) = false)
      by exact Hinit.
    pose proof (Initialize_defaults (Exports.overlay g1) device context
                  Hinit1) as H.
    cbn zeta in H.
    destruct H as (_ & _ & H3 & H4 & _).
    repeat split; assumption.
  - intros o' Hon. apply Initialize_initialized. exact Hon.
Qed.

(** C6. After [SetMetrics(50.0, 65.0, 80.0, 70.0, 8192, 4096)], with the
    five visibility flags on, [GetRenderedText] on the stored metrics
    yields the lines "FPS: <x>", "CPU: 50.0% (65°C)",
    "GPU: 80.0% (70°C)", "RAM: 8192 MB", "VRAM: 4096 MB" in this order,
    each ended by a line feed, where [fps_line] prints the hook's
    current FPS with one decimal after "FPS: ". *)
Theorem telemetry_scenario_lines (g : Exports.Globals HostState) :
  OverlayConfig.showFPS (config (Exports.overlay g)) = true ->
  OverlayConfig.showCPU (config (Exports.overlay g)) = true ->
  OverlayConfig.showGPU (config (Exports.overlay g)) = true ->
  OverlayConfig.showRAM (config (Exports.overlay g)) = true ->
  OverlayConfig.showTemps (config (Exports.overlay g)) = true ->
  F32.valid (Exports.GetCurrentFPS g) = true ->
  let g' := Exports.SetMetrics g (F32.of_Z 50) (F32.of_Z 65)
              (F32.of_Z 80) (F32.of_Z 70) 8192 4096 in
  let expected :=
    [fps_line (Exports.GetCurrentFPS g);
     "CPU: 50.0% (65°C)";
     "GPU: 80.0% (70°C)";
     "RAM: 8192 MB";
     "VRAM: 4096 MB"]%list in
  GetRenderedText (Exports.overlay g') (Exports.g_metrics g') =
    join_lines expected /\
  split_lines
    (GetRenderedText (Exports.overlay g') (Exports.g_metrics g')) =
    expected.
Proof.
  intros Hfps Hcpu Hgpu Hram Htemps Hvalid. cbn zeta.
  destruct g as [h o gm gc]. destruct o as [vis init px py op cfg].
  cbn [Exports.overlay config] in Hfps, Hcpu, Hgpu, Hram, Htemps.
  unfold Exports.GetCurrentFPS in *. cbn [Exports.hook] in *.
  unfold Exports.SetMetrics.
  cbn [Exports.overlay Exports.g_metrics Exports.hook].
  change (DX11Hook.GetFPS (DX11Hook.SetMetrics h _ _ _ _ _ _))
    with (DX11Hook.GetFPS h).
  change (DX11Hook.GetFrameTime (DX11Hook.SetMetrics h _ _ _ _ _ _))
    with (DX11Hook.GetFrameTime h).
  set (m := OverlayMetrics.mk _ _ _ _ _ _ _ _).
  assert (Hm : OverlayMetrics.wf m).
  { subst m. unfold OverlayMetrics.wf.
    cbn [OverlayMetrics.fps OverlayMetrics.cpuUsage OverlayMetrics.cpuTemp
         OverlayMetrics.gpuUsage OverlayMetrics.gpuTemp
         OverlayMetrics.ramUsage OverlayMetrics.vramUsage].
    split; [exact Hvalid|].
    repeat split; try (vm_compute; congruence). }
  assert (Hlines : map snd (composeText cfg m) =
            [fps_line (DX11Hook.GetFPS h);
             "CPU: 50.0% (65°C)"; "GPU: 80.0% (70°C)";
             "RAM: 8192 MB"; "VRAM: 4096 MB"]%list).
  { unfold composeText. rewrite Hfps, Hcpu, Hgpu, Hram, Htemps.
    subst m.
    cbn [map snd List.app OverlayMetrics.fps OverlayMetrics.cpuUsage
         OverlayMetrics.cpuTemp OverlayMetrics.gpuUsage
         OverlayMetrics.gpuTemp OverlayMetrics.ramUsage
         OverlayMetrics.vramUsage].
    rewrite cpu_line_50_65, gpu_line_80_70, ram_line_8192, vram_line_4096.
    reflexivity. }
  pose proof (GetRenderedText_join (mk vis init px py op cfg) cfg m Hm)
    as Htext.
  change (SetConfig (mk vis init px py op cfg) cfg)
    with (mk vis init px py op cfg) in Htext.
  rewrite Htext, Hlines. split; [reflexivity|].
  rewrite <- Hlines. apply split_join_lines, composeText_nl_free.
Qed.

End Host.

End OverlayFacts.

(** * The properties at sample values *)

Module HookWitnesses.

Import DX11Hook Timeline HookFacts.

Lemma HookedPresent_forwards_once_witness :
  originalPresent (hook Samples.process) = Some Samples.present_counting /\
  HookedPresent Samples.process (Samples.ms 16) 4096 1 0 =
    Some (mkProcess (CalculateFPS (hook Samples.process) (Samples.ms 16))
            1%nat [(4096, 1, 0)],
          0).
Proof.
  split; [reflexivity|].
  exact (HookedPresent_forwards_once Samples.process (Samples.ms 16)
           4096 1 0 Samples.present_counting eq_refl).
Defined.

(** Five frames 100 ms apart after an install at time 0: the fifth brings
    the window to 500 ms and publishes 10 frames per second. *)
Lemma fps_published_at_threshold_witness :
  window_open (Samples.installed_at 0) /\
  GetFPS (run_ticks (Samples.installed_at 0)
            (firstn 3 (map Samples.ms [100; 200; 300; 400]))) =
    GetFPS (Samples.installed_at 0) /\
  GetFPS (run_ticks (Samples.installed_at 0)
            (map Samples.ms [100; 200; 300; 400] ++ [Samples.ms 500])) =
    F32.of_Z 10.
Proof.
  assert (Hopen : window_open (Samples.installed_at 0))
    by (split; reflexivity).
  assert (Hlen : Z.of_nat (List.length (map Samples.ms [100; 200; 300; 400]))
                 < INT_MAX) by (vm_compute; reflexivity).
  assert (Hquiet : below_threshold F32.zero
                     (lastFrameTime (Samples.installed_at 0))
                     (map Samples.ms [100; 200; 300; 400]) = true)
    by (vm_compute; reflexivity).
  destruct (fps_published_at_threshold (Samples.installed_at 0)
              (map Samples.ms [100; 200; 300; 400]) (Samples.ms 500)
              Hopen Hlen Hquiet) as (Hbetween & Hupdate & _).
  split; [exact Hopen|]. split; [apply Hbetween|].
  destruct (Hupdate ltac:(vm_compute; reflexivity)) as (Hfps & _ & _).
  rewrite Hfps. vm_compute. reflexivity.
Defined.

(** Install at 1 ms, frames at 3 ms and 7 ms: the second frame took 4 ms. *)
Lemma frame_time_is_last_delta_witness :
  GetFrameTime
    (run_ticks
       (fst (Initialize (instance0 nat) Samples.created_ok (Samples.ms 1)))
       (firstn 2 [Samples.ms 3; Samples.ms 7])) =
    elapsed_ms (Samples.ms 7) (Samples.ms 3) /\
  elapsed_ms (Samples.ms 7) (Samples.ms 3) = F32.of_Z 4.
Proof.
  split; [|vm_compute; reflexivity].
  apply (frame_time_is_last_delta (instance0 nat) Samples.created_ok
           (Samples.ms 1) [Samples.ms 3; Samples.ms 7] 2).
  - reflexivity.
  - reflexivity.
  - cbn. lia.
Defined.

(** C3 as stated fails at the first tick: installed at time 0 with frames
    at 5 ms and 9 ms (strictly increasing), the frame time after the first
    tick is 5 ms, not 0. *)
Lemma first_frame_time_counterexample :
  GetFrameTime
    (run_ticks (Samples.installed_at 0)
       (firstn 1 [Samples.ms 5; Samples.ms 9])) = F32.of_Z 5 /\
  GetFrameTime
    (run_ticks (Samples.installed_at 0)
       (firstn 1 [Samples.ms 5; Samples.ms 9])) <> F32.zero.
Proof.
  split; [vm_compute; reflexivity | vm_compute; discriminate].
Qed.

Lemma first_tick_measures_from_install_witness :
  lastFrameTime
    (CalculateFPS
       (fst (Initialize (instance0 nat) Samples.created_ok (Samples.ms 2)))
       (Samples.ms 9)) = Samples.ms 9 /\
  GetFrameTime
    (CalculateFPS
       (fst (Initialize (instance0 nat) Samples.created_ok (Samples.ms 2)))
       (Samples.ms 9)) = elapsed_ms (Samples.ms 9) (Samples.ms 2).
Proof.
  apply (first_tick_measures_from_install (instance0 nat) Samples.created_ok
           (Samples.ms 2) (Samples.ms 9)); reflexivity.
Defined.

(** C4 as stated fails: when the first presentation call comes 10 s after
    the install, the first tick reports 10000 ms, not 0. *)
Lemma first_tick_counterexample :
  GetFrameTime (CalculateFPS (Samples.installed_at 0) (Samples.ms 10000)) =
    F32.of_Z 10000 /\
  GetFrameTime (CalculateFPS (Samples.installed_at 0) (Samples.ms 10000)) <>
    F32.zero.
Proof.
  split; [vm_compute; reflexivity | vm_compute; discriminate].
Qed.

(** A successful install, then two more calls, the second of which would
    fail to create a device if it tried. *)
Lemma Initialize_repeat_is_success_witness :
  snd (Initialize (instance0 nat) Samples.created_ok (Samples.ms 1)) = true /\
  Initialize_again
    (fst (Initialize (instance0 nat) Samples.created_ok (Samples.ms 1)))
    [(Samples.created_ok, Samples.ms 5); (Samples.created_failed, Samples.ms 9)] =
    (fst (Initialize (instance0 nat) Samples.created_ok (Samples.ms 1)),
     [true; true]).
Proof.
  split; [reflexivity|].
  exact (Initialize_repeat_is_success (instance0 nat) Samples.created_ok
           (Samples.ms 1)
           [(Samples.created_ok, Samples.ms 5);
            (Samples.created_failed, Samples.ms 9)] eq_refl).
Defined.

End HookWitnesses.

Module OverlayWitnesses.

Import Printf Lines ImGuiOverlay Bounds OverlayFacts.
Local Open Scope string_scope.

Lemma sample_metrics_wf : OverlayMetrics.wf Samples.metrics.
Proof.
  unfold OverlayMetrics.wf, int_range, INT_MIN, INT_MAX.
  repeat split; try reflexivity; cbn; lia.
Defined.

Lemma overlay_lines_follow_flags_witness :
  rendered_lines statics0 OverlayConfig.default Samples.metrics =
    map snd (composeText OverlayConfig.default Samples.metrics) /\
  rendered_lines statics0
    (OverlayConfig.set_showCPU OverlayConfig.default false) Samples.metrics =
    map snd (without CPU (composeText OverlayConfig.default Samples.metrics)).
Proof.
  destruct (overlay_lines_follow_flags statics0 OverlayConfig.default
              Samples.metrics sample_metrics_wf)
    as (_ & Hlines & _ & _ & Hcpu & _).
  split; [exact Hlines | exact Hcpu].
Defined.

Lemma telemetry_scenario_lines_witness :
  split_lines
    (GetRenderedText
       (Exports.overlay
          (Exports.SetMetrics (Exports.globals0 nat) (F32.of_Z 50)
             (F32.of_Z 65) (F32.of_Z 80) (F32.of_Z 70) 8192 4096))
       (Exports.g_metrics
          (Exports.SetMetrics (Exports.globals0 nat) (F32.of_Z 50)
             (F32.of_Z 65) (F32.of_Z 80) (F32.of_Z 70) 8192 4096))) =
    [fps_line (Exports.GetCurrentFPS (Exports.globals0 nat));
     "CPU: 50.0% (65°C)"; "GPU: 80.0% (70°C)";
     "RAM: 8192 MB"; "VRAM: 4096 MB"]%list.
Proof.
  exact (proj2 (telemetry_scenario_lines (Exports.globals0 nat)
                  eq_refl eq_refl eq_refl eq_refl eq_refl eq_refl)).
Defined.

Lemma Render_noop_when_hidden_witness :
  Render Samples.hidden Samples.metrics = Some (Samples.hidden, Skipped) /\
  (exists r,
      Render (Initialize statics0 0 0) Samples.metrics =
        Some (Initialize statics0 0 0, r)).
Proof.
  split.
  - apply (proj1 (Render_noop_when_hidden Samples.hidden Samples.metrics)).
    left. reflexivity.
  - apply (proj2 (Render_noop_when_hidden (Initialize statics0 0 0)
                    Samples.metrics)).
    exact sample_metrics_wf.
Defined.

Lemma Render_stays_in_buffer_witness :
  exists r,
    Render (Initialize statics0 0 0) Samples.metrics =
      Some (Initialize statics0 0 0, r) /\
    rendered_in_bounds r.
Proof.
  exact (Render_stays_in_buffer (Initialize statics0 0 0) Samples.metrics
           sample_metrics_wf).
Defined.

Lemma Initialize_discards_config_witness :
  OverlayConfig.showFPS Samples.custom_config = false /\
  OverlayConfig.fontSize Samples.custom_config = 20 /\
  OverlayConfig.showFPS
    (config (Initialize (SetConfig statics0 Samples.custom_config) 0 0)) =
    true /\
  OverlayConfig.fontSize
    (config (Initialize (SetConfig statics0 Samples.custom_config) 0 0)) =
    14 /\
  OverlayConfig.fontSize
    (config
       (Initialize
          (SetConfig
             (Initialize (SetConfig statics0 Samples.custom_config) 0 0)
             Samples.custom_config) 0 0)) = 20.
Proof.
  destruct (Initialize_discards_config (Exports.globals0 nat)
              Samples.custom_config F32.lit_1 F32.zero F32.zero F32.lit_1
              false 0 0 0 0 eq_refl)
    as ((Hsize & _ & _ & Hfps & _ & _ & _ & _ & _ & _ & Hlater) & _ & _).
  split; [reflexivity|]. split; [reflexivity|].
  split; [exact Hfps|]. split; [exact Hsize|].
  exact (f_equal OverlayConfig.fontSize
           (proj2 (Hlater Samples.custom_config))).
Defined.

End OverlayWitnesses.

(** * Further properties of the presentation hook *)

Module HookMore.

Import DX11Hook Timeline Frames.

Section Host.

Context {HostState : Type}.

Implicit Types (h : DX11Hook.t HostState) (now : time_point)
  (stamps : list time_point) (p : Process HostState).

(** X1. A failed device creation leaves the hook uninstalled: [Initialize]
    answers [false], the flag stays off, and neither the captured entry
    point nor any timing field moves; the next call tries again and, when the
    device can be created, installs. *)
Theorem Initialize_failure_then_retry h
    (failed created : CreateResult HostState) (t1 t2 : time_point) :
  initialized h = false ->
  FAILED (hr failed) = true ->
  FAILED (hr created) = false ->
  let h1 := fst (Initialize h failed t1) in
  snd (Initialize h failed t1) = false /\
  initialized h1 = false /\
  originalPresent h1 = originalPresent h /\
  lastFrameTime h1 = lastFrameTime h /\
  currentFPS h1 = currentFPS h /\
  frameTime h1 = frameTime h /\
  frameCount h1 = frameCount h /\
  fpsAccumulator h1 = fpsAccumulator h /\
  snd (Initialize h1 created t2) = true /\
  initialized (fst (Initialize h1 created t2)) = true /\
  originalPresent (fst (Initialize h1 created t2)) = Some (vtable_8 created) /\
  lastFrameTime (fst (Initialize h1 created t2)) = t2.
Proof.
  intros Hinit Hfail Hok. cbn zeta.
  assert (Hfirst : Initialize h failed t1 =
            (mk (out_device failed) (out_context failed)
                (out_swapChain failed) (originalPresent h) (initialized h)
                (lastFrameTime h) (currentFPS h) (frameTime h) (frameCount h)
                (fpsAccumulator h) (cpuUsage h) (cpuTemp h) (gpuUsage h)
                (gpuTemp h) (ramUsage h) (vramUsage h),
             false)).
  { unfold Initialize. rewrite Hinit, Hfail. reflexivity. }
  rewrite Hfirst. cbn [fst snd].
  unfold Initialize.
  cbn [initialized originalPresent lastFrameTime currentFPS frameTime
       frameCount fpsAccumulator].
  rewrite Hinit, Hok. cbn. repeat split.
Qed.


(** X3. [Shutdown] does not give the captured entry point back: a
    presentation call that still reaches [HookedPresent] after [Shutdown] is
    forwarded to the original exactly as before, and the timing goes on. *)
Theorem HookedPresent_after_Shutdown p now (pSwapChain : pointer)
    (SyncInterval Flags : UINT) (present : PresentFunc HostState) :
  originalPresent (hook p) = Some present ->
  HookedPresent (mkProcess (Shutdown (hook p)) (host p) (forwarded p))
    now pSwapChain SyncInterval Flags =
    Some (mkProcess (CalculateFPS (Shutdown (hook p)) now)
            (fst (present pSwapChain SyncInterval Flags (host p)))
            (forwarded p ++ [(pSwapChain, SyncInterval, Flags)]),
          snd (present pSwapChain SyncInterval Flags (host p))).
Proof.
  intro Horig.
  unfold HookedPresent, call_original. cbn [hook host forwarded].
  assert (Hkept : originalPresent (CalculateFPS (Shutdown (hook p)) now) =
                  Some present).
  { unfold CalculateFPS. destruct (F32.geb _ _); exact Horig. }
  rewrite Hkept.
  destruct (present pSwapChain SyncInterval Flags (host p)) as [host' code].
  reflexivity.
Qed.

Lemma CalculateFPS_keeps_entry_point h now :
  originalPresent (CalculateFPS h now) = originalPresent h.
Proof.
  unfold CalculateFPS. destruct (F32.geb _ _); reflexivity.
Qed.

(** X4. A run of intercepted calls behaves, for the host, like the same run
    of calls of the original entry point: the same return codes in the same
    order and the same final host state; the original is called once per
    frame with that frame's arguments, and the timing state is the one the
    clock readings of the frames produce. *)
Theorem present_all_transparent (frames : list (Frame)) :
  forall p (present : PresentFunc HostState),
    originalPresent (hook p) = Some present ->
    present_all p frames =
      Some (mkProcess (run_ticks (hook p) (map fst frames))
              (fst (original_all present (host p) (map snd frames)))
              (forwarded p ++ map snd frames),
            snd (original_all present (host p) (map snd frames))).
Proof.
  induction frames as [|[now [[pSwapChain SyncInterval] Flags]] rest IH];
    intros p present Horig.
  - cbn. rewrite app_nil_r. destruct p. reflexivity.
  - cbn [present_all map fst snd original_all].
    unfold HookedPresent, call_original. cbn [hook host forwarded].
    rewrite CalculateFPS_keeps_entry_point, Horig.
    destruct (present pSwapChain SyncInterval Flags (host p))
      as [host1 code] eqn:Hcall.
    rewrite (IH _ present)
      by (cbn [hook]; rewrite CalculateFPS_keeps_entry_point; exact Horig).
    cbn [hook host forwarded].
    destruct (original_all present host1 (map snd rest)) as [host2 codes].
    cbn [fst snd]. rewrite <- app_assoc. reflexivity.
Qed.

Lemma geb_zero_500 : F32.geb F32.zero F32.lit_500 = false.
Proof. reflexivity. Qed.

(** X5. After every frame the accumulator is below the 500 ms threshold
    (or not a number): a frame that reaches the threshold publishes and
    resets at once, so the threshold is never carried into the next
    frame. *)
Theorem accumulator_below_threshold h stamps :
  stamps <> [] ->
  F32.geb (fpsAccumulator (run_ticks h stamps)) F32.lit_500 = false.
Proof.
  intro Hne.
  destruct (exists_last Hne) as (front & now & ->).
  unfold run_ticks. rewrite fold_left_app. cbn [fold_left].
  set (h1 := fold_left CalculateFPS front h).
  unfold CalculateFPS.
  destruct (F32.geb (F32.add (fpsAccumulator h1)
                       (elapsed_ms now (lastFrameTime h1))) F32.lit_500)
    eqn:Hgeb; cbn [set_timing fpsAccumulator].
  - exact geb_zero_500.
  - exact Hgeb.
Qed.

Lemma elapsed_ms_sub_microsecond (now last : time_point) :
  - 1000 < now - last < 1000 -> elapsed_ms now last = F32.zero.
Proof.
  intro Hd. unfold elapsed_ms, duration_cast_microseconds.
  assert (Hq : Z.quot (now - last) 1000 = 0).
  { destruct (Z.le_gt_cases 0 (now - last)).
    - apply Z.quot_small. lia.
    - rewrite <- (Z.opp_involutive (now - last)).
      rewrite Z.quot_opp_l by lia.
      rewrite Z.quot_small by lia. reflexivity. }
  rewrite Hq. reflexivity.
Qed.

Lemma add_zero_r (x : F32.float) :
  x <> S754_zero true -> F32.add x F32.zero = x.
Proof.
  intro Hx. destruct x as [[|]|s| |s m e]; try reflexivity.
  contradiction Hx. reflexivity.
Qed.

(** X6. A frame that comes less than a microsecond after the previous one
    is measured as 0 ms: it is counted, the new timestamp is stored, but
    nothing is added to the accumulator and the published FPS stays. *)
Theorem sub_microsecond_frame h now :
  - 1000 < now - lastFrameTime h < 1000 ->
  fpsAccumulator h <> S754_zero true ->
  F32.geb (fpsAccumulator h) F32.lit_500 = false ->
  CalculateFPS h now =
    set_timing h now (currentFPS h) F32.zero
      (wrap_int (frameCount h + 1)) (fpsAccumulator h).
Proof.
  intros Hd Hacc Hbelow. unfold CalculateFPS.
  rewrite elapsed_ms_sub_microsecond by exact Hd.
  rewrite add_zero_r by exact Hacc.
  rewrite Hbelow. reflexivity.
Qed.

(** X7. Pushing telemetry into the hook and timing a frame do not
    interfere: in either order the result is the same, and [SetMetrics]
    changes neither the published FPS nor the last frame time. *)
Theorem SetMetrics_commutes_with_frame h now
    (cpu cpuT gpu gpuT : F32.float) (ram vram : Z) :
  CalculateFPS (SetMetrics h cpu cpuT gpu gpuT ram vram) now =
    SetMetrics (CalculateFPS h now) cpu cpuT gpu gpuT ram vram /\
  GetFPS (SetMetrics h cpu cpuT gpu gpuT ram vram) = GetFPS h /\
  GetFrameTime (SetMetrics h cpu cpuT gpu gpuT ram vram) = GetFrameTime h.
Proof.
  split; [|split; reflexivity].
  unfold CalculateFPS, SetMetrics.
  cbn [lastFrameTime frameCount fpsAccumulator currentFPS].
  destruct (F32.geb _ _); reflexivity.
Qed.

End Host.

End HookMore.

(** * Properties of the exported surface *)

Module SurfaceFacts.

Import Surface.

Section Host.

Context {HostState : Type}.

Implicit Types (g : Exports.Globals HostState) (c : Call HostState)
  (calls : list (Call HostState)).

Lemma perform_all_snoc g calls c :
  perform_all g (calls ++ [c]) = perform (perform_all g calls) c.
Proof.
  unfold perform_all. rewrite fold_left_app. reflexivity.
Qed.

(** A property of the globals as loaded that every call keeps holds after
    every run. *)
Lemma reachable_ind (P : Exports.Globals HostState -> Prop) :
  P (Exports.globals0 HostState) ->
  (forall g c, P g -> P (perform g c)) ->
  forall g, reachable g -> P g.
Proof.
  intros Hstart Hstep g [calls ->].
  induction calls as [|c calls IH] using rev_ind.
  - exact Hstart.
  - rewrite perform_all_snoc. apply Hstep. exact IH.
Qed.

Lemma DllMain_cases g (reason : Z) :
  fst (DllMain g reason) = g \/ fst (DllMain g reason) = Exports.Shutdown g.
Proof.
  unfold DllMain.
  destruct (reason =? DLL_PROCESS_ATTACH); [left; reflexivity|].
  destruct (reason =? DLL_PROCESS_DETACH); [right | left]; reflexivity.
Qed.

Lemma perform_keeps_uninitialized g c :
  ImGuiOverlay.initialized (Exports.overlay g) = false ->
  ImGuiOverlay.initialized (Exports.overlay (perform g c)) = false.
Proof.
  intro Hoff. destruct c; cbn [perform]; try exact Hoff.
  - destruct (DllMain_cases g ul_reason_for_call) as [-> | ->];
      [exact Hoff|].
    cbn [Exports.Shutdown Exports.overlay]. unfold ImGuiOverlay.Shutdown.
    rewrite Hoff. exact Hoff.
  - unfold Exports.Initialize.
    destruct (DX11Hook.Initialize _ _ _). exact Hoff.
  - cbn [Exports.Shutdown Exports.overlay]. unfold ImGuiOverlay.Shutdown.
    rewrite Hoff. exact Hoff.
Qed.

(** X8. No call on the exported surface initializes the compositor:
    whatever has been called since the library was loaded, [Initialize]
    included, the overlay is still uninitialized and [Render] would skip. *)
Theorem compositor_never_initialized g (m : OverlayMetrics.t) :
  reachable g ->
  ImGuiOverlay.initialized (Exports.overlay g) = false /\
  ImGuiOverlay.Render (Exports.overlay g) m =
    Some (Exports.overlay g, ImGuiOverlay.Skipped).
Proof.
  intro Hreach.
  assert (Hoff : ImGuiOverlay.initialized (Exports.overlay g) = false).
  { revert g Hreach. apply reachable_ind.
    - reflexivity.
    - intros g c. apply perform_keeps_uninitialized. }
  split; [exact Hoff|].
  unfold ImGuiOverlay.Render. rewrite Hoff, orb_true_r. reflexivity.
Qed.

Lemma perform_keeps_config_in_step g c :
  config_in_step g -> config_in_step (perform g c).
Proof.
  intros (Hcfg & Hfont & Hop). unfold config_in_step.
  destruct c; cbn [perform]; try (repeat split; assumption).
  - destruct (DllMain_cases g ul_reason_for_call) as [-> | ->];
      [repeat split; assumption|].
    cbn [Exports.Shutdown Exports.overlay Exports.g_config].
    unfold ImGuiOverlay.Shutdown.
    destruct (negb _); cbn [ImGuiOverlay.config]; repeat split; assumption.
  - unfold Exports.Initialize.
    destruct (DX11Hook.Initialize _ _ _). repeat split; assumption.
  - cbn [Exports.Shutdown Exports.overlay Exports.g_config].
    unfold ImGuiOverlay.Shutdown.
    destruct (negb _); cbn [ImGuiOverlay.config]; repeat split; assumption.
Qed.

(** X9. After any run of calls on the exported surface the configuration
    the overlay reads is [g_config], and no call reaches its font family or
    its opacity field: both stay at their defaults ([SetOverlayOpacity]
    writes the overlay's own opacity, not the configuration's). *)
Theorem config_follows_g_config g :
  reachable g ->
  ImGuiOverlay.config (Exports.overlay g) = Exports.g_config g /\
  Printf.c_str
    (OverlayConfig.fontFamily (ImGuiOverlay.config (Exports.overlay g))) =
    "Segoe UI"%string /\
  OverlayConfig.opacity (ImGuiOverlay.config (Exports.overlay g)) =
    F32.lit_0_8.
Proof.
  intro Hreach.
  assert (Hstep : config_in_step g).
  { revert g Hreach. apply reachable_ind.
    - repeat split.
    - intros g c. apply perform_keeps_config_in_step. }
  destruct Hstep as (Hcfg & Hfont & Hop).
  split; [exact Hcfg|]. rewrite Hcfg, Hfont, Hop. split; reflexivity.
Qed.

Lemma perform_keeps_metrics_agree g c :
  metrics_agree g -> metrics_agree (perform g c).
Proof.
  intro Hagree. unfold metrics_agree in *.
  destruct c; cbn [perform]; try exact Hagree.
  - destruct (DllMain_cases g ul_reason_for_call) as [-> | ->];
      exact Hagree.
  - unfold Exports.Initialize, DX11Hook.Initialize.
    destruct (DX11Hook.initialized _); [exact Hagree|].
    destruct (FAILED _); exact Hagree.
  - repeat split.
  - cbn [Exports.hook Exports.g_metrics]. unfold DX11Hook.CalculateFPS.
    destruct (F32.geb _ _); exact Hagree.
Qed.

(** X10. The hook's copy of the telemetry and the copy in [g_metrics] never
    part: after any run of calls and frames the six values agree, and the FPS
    and frame time in [g_metrics] are those the hook had at the last
    [SetMetrics]. *)
Theorem telemetry_copies_agree g calls
    (cpu cpuT gpu gpuT : F32.float) (ram vram : Z) :
  reachable g ->
  metrics_agree g /\
  metrics_agree
    (perform_all (Exports.SetMetrics g cpu cpuT gpu gpuT ram vram) calls) /\
  OverlayMetrics.fps
    (Exports.g_metrics (Exports.SetMetrics g cpu cpuT gpu gpuT ram vram)) =
    Exports.GetCurrentFPS g /\
  OverlayMetrics.frameTime
    (Exports.g_metrics (Exports.SetMetrics g cpu cpuT gpu gpuT ram vram)) =
    Exports.GetFrameTime g.
Proof.
  intro Hreach.
  assert (Hall : forall g', reachable g' -> metrics_agree g').
  { apply reachable_ind.
    - repeat split.
    - intros g' c. apply perform_keeps_metrics_agree. }
  split; [apply Hall; exact Hreach|].
  split; [|split; reflexivity].
  apply Hall. destruct Hreach as [before ->].
  exists (before ++ SetMetrics_ cpu cpuT gpu gpuT ram vram :: calls).
  unfold perform_all. rewrite fold_left_app. reflexivity.
Qed.

(** X11. What [ImGuiOverlay::Initialize] discards is not lost: the exported
    setters keep their values in [g_config], which [Initialize] does not
    touch, so the first setter called after it hands the whole of [g_config]
    over again and the colour set before comes back. *)
Theorem setter_restores_discarded_config g (r g_ b a : F32.float)
    (size : Z) (device context : pointer) :
  ImGuiOverlay.initialized (Exports.overlay g) = false ->
  let g1 := Exports.SetOverlayColor g r g_ b a in
  let g2 := Exports.mk (Exports.hook g1)
              (ImGuiOverlay.Initialize (Exports.overlay g1) device context)
              (Exports.g_metrics g1) (Exports.g_config g1) in
  let g3 := Exports.SetOverlayFontSize g2 size in
  OverlayConfig.color (ImGuiOverlay.config (Exports.overlay g2)) =
    OverlayConfig.default_color /\
  OverlayConfig.color (Exports.g_config g2) = (r, g_, b, a) /\
  OverlayConfig.color (ImGuiOverlay.config (Exports.overlay g3)) =
    (r, g_, b, a) /\
  OverlayConfig.fontSize (ImGuiOverlay.config (Exports.overlay g3)) = size /\
  ImGuiOverlay.config (Exports.overlay g3) =
    OverlayConfig.set_fontSize
      (OverlayConfig.set_color (Exports.g_config g) (r, g_, b, a)) size.
Proof.
  intro Hoff. cbn zeta.
  unfold Exports.SetOverlayFontSize, Exports.SetOverlayColor, Exports.publish.
  cbn [Exports.overlay Exports.g_config Exports.hook Exports.g_metrics].
  unfold ImGuiOverlay.Initialize, ImGuiOverlay.SetConfig,
    ImGuiOverlay.set_config.
  cbn [ImGuiOverlay.initialized]. rewrite Hoff.
  cbn. repeat split.
Qed.

Lemma perform_keeps_captured g c :
  (DX11Hook.initialized (Exports.hook g) = true ->
   DX11Hook.originalPresent (Exports.hook g) <> None) ->
  DX11Hook.initialized (Exports.hook (perform g c)) = true ->
  DX11Hook.originalPresent (Exports.hook (perform g c)) <> None.
Proof.
  intros Hinv. destruct c; cbn [perform]; try exact Hinv.
  - destruct (DllMain_cases g ul_reason_for_call) as [-> | ->];
      [exact Hinv|].
    cbn. discriminate.
  - unfold Exports.Initialize, DX11Hook.Initialize.
    destruct (DX11Hook.initialized (Exports.hook g)) eqn:Hinit.
    + cbn [Exports.hook]. intros _. apply Hinv. reflexivity.
    + destruct (FAILED _); cbn; [intro H; discriminate H | intros _; discriminate].
  - cbn. discriminate.
  - cbn [Exports.hook]. unfold DX11Hook.CalculateFPS.
    destruct (F32.geb _ _); exact Hinv.
Qed.

(** X15. Whenever the hook reports itself installed, after any run of
    calls and frames since the library was loaded, an entry point has been
    captured: an intercepted call is then forwarded to it once and never goes
    through a null pointer. *)
Theorem installed_hook_has_entry_point g (s : HostState)
    (log : list (pointer * UINT * UINT)) (now : time_point)
    (pSwapChain : pointer) (SyncInterval Flags : UINT) :
  reachable g ->
  DX11Hook.initialized (Exports.hook g) = true ->
  exists present,
    DX11Hook.originalPresent (Exports.hook g) = Some present /\
    DX11Hook.HookedPresent (DX11Hook.mkProcess (Exports.hook g) s log)
      now pSwapChain SyncInterval Flags =
      Some (DX11Hook.mkProcess (DX11Hook.CalculateFPS (Exports.hook g) now)
              (fst (present pSwapChain SyncInterval Flags s))
              (log ++ [(pSwapChain, SyncInterval, Flags)]),
            snd (present pSwapChain SyncInterval Flags s)).
Proof.
  intros Hreach Hinit.
  assert (Hinv : DX11Hook.initialized (Exports.hook g) = true ->
                 DX11Hook.originalPresent (Exports.hook g) <> None).
  { clear Hinit. revert g Hreach.
    apply (reachable_ind
             (fun g => DX11Hook.initialized (Exports.hook g) = true ->
                       DX11Hook.originalPresent (Exports.hook g) <> None)).
    - cbn. discriminate.
    - intros g c. apply perform_keeps_captured. }
  specialize (Hinv Hinit).
  destruct (DX11Hook.originalPresent (Exports.hook g)) as [present|] eqn:Horig;
    [|contradiction Hinv; reflexivity].
  exists present. split; [reflexivity|].
  unfold DX11Hook.HookedPresent, DX11Hook.call_original.
  cbn [DX11Hook.hook DX11Hook.host DX11Hook.forwarded].
  assert (Hkept : DX11Hook.originalPresent
                    (DX11Hook.CalculateFPS (Exports.hook g) now) =
                  Some present).
  { unfold DX11Hook.CalculateFPS. destruct (F32.geb _ _); exact Horig. }
  rewrite Hkept.
  destruct (present pSwapChain SyncInterval Flags s). reflexivity.
Qed.

Lemma perform_keeps_placement g c :
  sets_placement c = false ->
  ImGuiOverlay.isVisible (Exports.overlay (perform g c)) =
    ImGuiOverlay.isVisible (Exports.overlay g) /\
  ImGuiOverlay.posX (Exports.overlay (perform g c)) =
    ImGuiOverlay.posX (Exports.overlay g) /\
  ImGuiOverlay.posY (Exports.overlay (perform g c)) =
    ImGuiOverlay.posY (Exports.overlay g) /\
  ImGuiOverlay.opacity (Exports.overlay (perform g c)) =
    ImGuiOverlay.opacity (Exports.overlay g).
Proof.
  intro Hc. destruct c; cbn [sets_placement] in Hc; try discriminate Hc;
    cbn [perform]; try (repeat split; reflexivity).
  - destruct (DllMain_cases g ul_reason_for_call) as [-> | ->];
      [repeat split; reflexivity|].
    cbn [Exports.Shutdown Exports.overlay]. unfold ImGuiOverlay.Shutdown.
    destruct (negb _); repeat split; reflexivity.
  - unfold Exports.Initialize.
    destruct (DX11Hook.Initialize _ _ _). repeat split; reflexivity.
  - cbn [Exports.Shutdown Exports.overlay]. unfold ImGuiOverlay.Shutdown.
    destruct (negb _); repeat split; reflexivity.
Qed.


End Host.

End SurfaceFacts.

(** * Further properties of the overlay *)

Module OverlayMore.

Import Printf Lines ImGuiOverlay Bounds Written PrintfFacts OverlayFacts.
Local Open Scope string_scope.

(** X12. Every [Shutdown] followed by [Initialize] puts the font size, the
    font family, the colour and the five flags back to their defaults,
    whatever configuration was in use and whether or not the compositor was
    initialized before; visibility, position and both opacities are kept. *)
Theorem Shutdown_Initialize_resets_config (o : ImGuiOverlay.t)
    (cfg : OverlayConfig.t) (device context : pointer) :
  let o1 := Initialize (Shutdown (SetConfig o cfg)) device context in
  initialized o1 = true /\
  OverlayConfig.fontSize (config o1) = 14 /\
  c_str (OverlayConfig.fontFamily (config o1)) = "Segoe UI" /\
  OverlayConfig.color (config o1) = OverlayConfig.default_color /\
  OverlayConfig.showFPS (config o1) = true /\
  OverlayConfig.showCPU (config o1) = true /\
  OverlayConfig.showGPU (config o1) = true /\
  OverlayConfig.showRAM (config o1) = true /\
  OverlayConfig.showTemps (config o1) = true /\
  OverlayConfig.opacity (config o1) = OverlayConfig.opacity cfg /\
  isVisible o1 = isVisible o /\
  posX o1 = posX o /\ posY o1 = posY o /\
  opacity o1 = opacity o.
Proof.
  cbn zeta. unfold Initialize, Shutdown, SetConfig, set_config.
  cbn [initialized]. destruct (initialized o); cbn; repeat split.
Qed.

(** *** The buffer and the text *)

Lemma list_ascii_append (a b : string) :
  list_ascii_of_string (a ++ b) =
    (list_ascii_of_string a ++ list_ascii_of_string b)%list.
Proof.
  induction a as [|c a IH]; cbn; [reflexivity | now rewrite IH].
Qed.

Lemma would_write_append (a b : string) :
  would_write (a ++ b) = would_write a + would_write b.
Proof.
  unfold would_write. rewrite length_append. lia.
Qed.

Lemma buffer0_holds : holds_text buffer0 "".
Proof.
  unfold holds_text. cbn. repeat split. intro H. contradiction H. reflexivity.
Qed.

(** One [snprintf] with room for its text and the NUL puts the text right
    after what the buffer holds. *)
Lemma append_holds (b : TextBuffer) (t s : string) :
  List.length (bytes b) = Z.to_nat BUFFER_SIZE ->
  holds_text b t ->
  would_write t + would_write s < BUFFER_SIZE ->
  exists b',
    append b s = Some b' /\
    List.length (bytes b') = Z.to_nat BUFFER_SIZE /\
    holds_text b' (t ++ s).
Proof.
  intros Hlen (Hoff & Hprefix & _) Hroom.
  assert (Ht : 0 <= would_write t) by (unfold would_write; lia).
  assert (Hs : 0 <= would_write s) by (unfold would_write; lia).
  unfold append.
  assert (Hguard : ((0 <=? offset b) && (offset b <=? BUFFER_SIZE))%Z = true).
  { apply andb_true_intro. split; apply Z.leb_le; lia. }
  rewrite Hguard.
  assert (Hsize : (BUFFER_SIZE - offset b =? 0)%Z = false)
    by (apply Z.eqb_neq; lia).
  rewrite Hsize.
  rewrite truncated_fits by lia.
  assert (Hat : Z.to_nat (offset b) = String.length t).
  { rewrite Hoff. unfold would_write. apply Nat2Z.id. }
  rewrite Hat.
  eexists. split; [reflexivity|].
  unfold holds_text. cbn [bytes offset calls].
  assert (Hstore : store (bytes b) (String.length t)
                     (list_ascii_of_string s ++ [NUL]) =
            (map Some (list_ascii_of_string (t ++ s)) ++
             Some NUL ::
             skipn (String.length t +
                    List.length (list_ascii_of_string s ++ [NUL]))
               (bytes b))%list).
  { unfold store. rewrite Hprefix, list_ascii_append, !map_app.
    cbn [map]. rewrite <- !app_assoc. reflexivity. }
  assert (Hlen_ts : List.length (map Some (list_ascii_of_string (t ++ s))) =
                    String.length (t ++ s)).
  { rewrite length_map. apply length_list_ascii. }
  split; [|split; [|split]].
  - rewrite store_length; [exact Hlen|].
    rewrite Hlen, length_app, length_list_ascii. cbn [List.length].
    unfold would_write, BUFFER_SIZE in *. lia.
  - rewrite would_write_append, Hoff.
    apply wrap_int_small.
    unfold INT_MIN, INT_MAX, BUFFER_SIZE in *. lia.
  - rewrite Hstore, <- Hlen_ts.
    rewrite firstn_app, Nat.sub_diag, firstn_all. cbn [firstn].
    apply app_nil_r.
  - intros _. rewrite Hstore, <- Hlen_ts.
    rewrite nth_error_app2 by lia. rewrite Nat.sub_diag. reflexivity.
Qed.

Lemma append_all_holds (texts : list string) :
  forall (b : TextBuffer) (t : string),
    List.length (bytes b) = Z.to_nat BUFFER_SIZE ->
    holds_text b t ->
    would_write t + would_write (flatten texts) < BUFFER_SIZE ->
    exists b',
      append_all b texts = Some b' /\
      List.length (bytes b') = Z.to_nat BUFFER_SIZE /\
      holds_text b' (t ++ flatten texts).
Proof.
  induction texts as [|s rest IH]; intros b t Hlen Hholds Hroom.
  - exists b. cbn [flatten fold_right]. rewrite append_empty_r.
    repeat split; assumption || apply Hholds.
  - change (flatten (s :: rest)) with (s ++ flatten rest) in *.
    rewrite would_write_append in Hroom.
    assert (Hrest : 0 <= would_write (flatten rest))
      by (unfold would_write; lia).
    destruct (append_holds b t s Hlen Hholds ltac:(lia))
      as (b1 & Happ & Hlen1 & Hholds1).
    destruct (IH b1 (t ++ s) Hlen1 Hholds1) as (b2 & Hall & Hlen2 & Hholds2).
    { rewrite would_write_append. lia. }
    exists b2. split; [|split; [exact Hlen2|]].
    + unfold append_all in *. cbn [fold_left and_then]. rewrite Happ.
      exact Hall.
    + rewrite <- append_assoc. exact Hholds2.
Qed.

(** [Render] makes its [snprintf] calls on the texts of [pieces], in
    order. *)
Lemma build_text_pieces (cfg : OverlayConfig.t) (m : OverlayMetrics.t) :
  build_text cfg m = append_all buffer0 (pieces cfg m).
Proof.
  unfold build_text, pieces, append_all.
  destruct (OverlayConfig.showFPS cfg), (OverlayConfig.showCPU cfg),
    (OverlayConfig.showGPU cfg), (OverlayConfig.showRAM cfg),
    (OverlayConfig.showTemps cfg);
    cbn [List.app fold_left and_then];
    repeat (match goal with
            | |- context [ImGuiOverlay.append ?b ?text] =>
                destruct (ImGuiOverlay.append b text);
                cbn [and_then fold_left]
            end);
    try reflexivity;
    repeat (match goal with
            | |- context [fold_left ?f ?l None] =>
                destruct l; cbn [fold_left and_then]
            end); reflexivity.
Qed.

(** [GetRenderedText] is the same texts one after the other. *)
Lemma GetRenderedText_pieces (o : ImGuiOverlay.t) (m : OverlayMetrics.t) :
  OverlayMetrics.wf m ->
  GetRenderedText o m = flatten (pieces (config o) m).
Proof.
  intros (Hfps & Hcu & Hct & Hgu & Hgt & Hram & Hvram).
  unfold GetRenderedText.
  rewrite (via_buf_fits (fps_text _))
    by (pose proof (fps_text_length _ Hfps); lia).
  rewrite (via_buf_fits (usage_text "CPU" _))
    by (pose proof (usage_text_length "CPU" _ eq_refl Hcu); lia).
  rewrite (via_buf_fits (usage_text "GPU" _))
    by (pose proof (usage_text_length "GPU" _ eq_refl Hgu); lia).
  rewrite (via_buf_fits (temp_text (OverlayMetrics.cpuTemp m)))
    by (pose proof (temp_text_length _ Hct); lia).
  rewrite (via_buf_fits (temp_text (OverlayMetrics.gpuTemp m)))
    by (pose proof (temp_text_length _ Hgt); lia).
  rewrite (via_buf_fits (mem_text "RAM" _))
    by (pose proof (mem_text_length "RAM" _ ltac:(cbn; lia) Hram);
        cbn [String.length] in *; lia).
  rewrite (via_buf_fits (mem_text "VRAM" _))
    by (pose proof (mem_text_length "VRAM" _ ltac:(cbn; lia) Hvram);
        cbn [String.length] in *; lia).
  unfold pieces, flatten.
  destruct (OverlayConfig.showFPS (config o)),
    (OverlayConfig.showCPU (config o)), (OverlayConfig.showGPU (config o)),
    (OverlayConfig.showRAM (config o)), (OverlayConfig.showTemps (config o));
    cbn [List.app fold_right];
    rewrite ?append_assoc, ?append_empty_r; cbn [String.append];
    rewrite ?append_assoc, ?append_empty_r; reflexivity.
Qed.

Lemma pieces_total (cfg : OverlayConfig.t) (m : OverlayMetrics.t) :
  OverlayMetrics.wf m -> would_write (flatten (pieces cfg m)) <= 279.
Proof.
  intros (Hfps & Hcu & Hct & Hgu & Hgt & Hram & Hvram).
  pose proof (fps_text_length _ Hfps).
  pose proof (usage_text_length "CPU" _ eq_refl Hcu).
  pose proof (usage_text_length "GPU" _ eq_refl Hgu).
  pose proof (temp_text_length _ Hct).
  pose proof (temp_text_length _ Hgt).
  pose proof (mem_text_length "RAM" _ ltac:(cbn; lia) Hram) as Hr.
  pose proof (mem_text_length "VRAM" _ ltac:(cbn; lia) Hvram) as Hv.
  cbn [String.length] in Hr, Hv.
  assert (Hnl : would_write nl = 1) by reflexivity.
  unfold pieces, flatten.
  destruct (OverlayConfig.showFPS cfg), (OverlayConfig.showCPU cfg),
    (OverlayConfig.showGPU cfg), (OverlayConfig.showRAM cfg),
    (OverlayConfig.showTemps cfg);
    cbn [List.app fold_right];
    rewrite ?would_write_append;
    change (would_write "") with 0; lia.
Qed.

(** X13. When the overlay is visible and initialized, [Render] leaves in
    its buffer exactly the text [GetRenderedText] returns: the bytes from the
    start of the buffer are the characters of that text, the running offset
    is its length (at most 279), and a NUL follows it as soon as one line is
    shown. *)
Theorem Render_builds_rendered_text (o : ImGuiOverlay.t)
    (m : OverlayMetrics.t) :
  OverlayMetrics.wf m ->
  isVisible o = true ->
  initialized o = true ->
  exists b,
    Render o m = Some (o, Built b) /\
    holds_text b (GetRenderedText o m) /\
    offset b <= 279.
Proof.
  intros Hm Hvis Hinit.
  unfold Render. rewrite Hvis, Hinit. cbn [negb orb].
  rewrite build_text_pieces.
  pose proof (pieces_total (config o) m Hm) as Htotal.
  destruct (append_all_holds (pieces (config o) m) buffer0 ""
              ltac:(apply buffer0_in_bounds) buffer0_holds)
    as (b & -> & _ & Hholds).
  { change (would_write "") with 0. unfold BUFFER_SIZE. lia. }
  exists b. change ("" ++ flatten (pieces (config o) m))
    with (flatten (pieces (config o) m)) in Hholds.
  rewrite GetRenderedText_pieces by exact Hm.
  split; [reflexivity|]. split; [exact Hholds|].
  destruct Hholds as (Hoff & _). rewrite Hoff. exact Htotal.
Qed.

(** X14. [showTemps] matters only through the CPU and GPU lines: with both
    hidden the text is the same whatever [showTemps] is; and with the FPS
    and memory lines hidden too the text is empty and [Render] makes no
    [snprintf] call at all. *)
Theorem temps_flag_needs_a_usage_line (o : ImGuiOverlay.t)
    (cfg : OverlayConfig.t) (m : OverlayMetrics.t) (temps : bool) :
  OverlayConfig.showCPU cfg = false ->
  OverlayConfig.showGPU cfg = false ->
  GetRenderedText (SetConfig o (OverlayConfig.set_showTemps cfg temps)) m =
    GetRenderedText (SetConfig o cfg) m /\
  build_text (OverlayConfig.set_showTemps cfg temps) m = build_text cfg m /\
  (OverlayConfig.showFPS cfg = false ->
   OverlayConfig.showRAM cfg = false ->
   GetRenderedText (SetConfig o cfg) m = "" /\
   build_text cfg m = Some buffer0).
Proof.
  intros Hcpu Hgpu.
  destruct cfg as [family size rgba alpha fps cpu gpu ram tmp].
  cbn [OverlayConfig.showCPU OverlayConfig.showGPU OverlayConfig.showFPS
       OverlayConfig.showRAM] in *.
  subst cpu gpu.
  split; [reflexivity|]. split; [reflexivity|].
  intros -> ->. split; reflexivity.
Qed.

End OverlayMore.

(** * The further properties at sample values *)

Module MoreWitnesses.

Import DX11Hook Timeline Frames Surface Written.
Import HookMore SurfaceFacts OverlayMore.

Lemma Initialize_failure_then_retry_witness :
  snd (Initialize (instance0 nat) Samples.created_failed (Samples.ms 1)) =
    false /\
  originalPresent
    (fst (Initialize
            (fst (Initialize (instance0 nat) Samples.created_failed
                    (Samples.ms 1)))
            Samples.created_ok (Samples.ms 2))) =
    Some Samples.present_counting.
Proof.
  destruct (Initialize_failure_then_retry (instance0 nat)
              Samples.created_failed Samples.created_ok
              (Samples.ms 1) (Samples.ms 2) eq_refl eq_refl eq_refl)
    as (Hfalse & _ & _ & _ & _ & _ & _ & _ & _ & _ & Hcaptured & _).
  split; [exact Hfalse | exact Hcaptured].
Defined.


Lemma HookedPresent_after_Shutdown_witness :
  HookedPresent
    (mkProcess (Shutdown (hook Samples.process)) (host Samples.process)
       (forwarded Samples.process))
    (Samples.ms 16) 4096 1 0 =
    Some (mkProcess
            (CalculateFPS (Shutdown (hook Samples.process)) (Samples.ms 16))
            1%nat [(4096, 1, 0)],
          0).
Proof.
  exact (HookedPresent_after_Shutdown Samples.process (Samples.ms 16)
           4096 1 0 Samples.present_counting eq_refl).
Defined.

Lemma present_all_transparent_witness :
  present_all Samples.process MoreSamples.two_frames =
    Some (mkProcess
            (run_ticks (hook Samples.process)
               [Samples.ms 16; Samples.ms 33])
            2%nat [(4096, 1, 0); (4096, 0, 0)],
          [0; 0]).
Proof.
  exact (present_all_transparent MoreSamples.two_frames Samples.process
           Samples.present_counting eq_refl).
Defined.

Lemma accumulator_below_threshold_witness :
  F32.geb
    (fpsAccumulator (run_ticks (Samples.installed_at 0) [Samples.ms 600]))
    F32.lit_500 = false.
Proof.
  apply (accumulator_below_threshold (Samples.installed_at 0)
           [Samples.ms 600]).
  discriminate.
Defined.

Lemma sub_microsecond_frame_witness :
  CalculateFPS (Samples.installed_at 0) 500 =
    set_timing (Samples.installed_at 0) 500
      (currentFPS (Samples.installed_at 0)) F32.zero 1
      (fpsAccumulator (Samples.installed_at 0)).
Proof.
  apply (sub_microsecond_frame (Samples.installed_at 0) 500).
  - cbn. lia.
  - discriminate.
  - reflexivity.
Defined.

Lemma session_reachable : reachable MoreSamples.loaded.
Proof. exists MoreSamples.session. reflexivity. Defined.

Lemma compositor_never_initialized_witness :
  ImGuiOverlay.initialized (Exports.overlay MoreSamples.loaded) = false /\
  ImGuiOverlay.Render (Exports.overlay MoreSamples.loaded) Samples.metrics =
    Some (Exports.overlay MoreSamples.loaded, ImGuiOverlay.Skipped).
Proof.
  exact (compositor_never_initialized MoreSamples.loaded Samples.metrics
           session_reachable).
Defined.

Lemma config_follows_g_config_witness :
  ImGuiOverlay.config (Exports.overlay MoreSamples.loaded) =
    Exports.g_config MoreSamples.loaded /\
  OverlayConfig.opacity
    (ImGuiOverlay.config (Exports.overlay MoreSamples.loaded)) =
    F32.lit_0_8 /\
  ImGuiOverlay.opacity (Exports.overlay MoreSamples.loaded) = F32.lit_0_5.
Proof.
  destruct (config_follows_g_config MoreSamples.loaded session_reachable)
    as (Hcfg & _ & Hop).
  split; [exact Hcfg|]. split; [exact Hop | reflexivity].
Defined.

Lemma telemetry_copies_agree_witness :
  metrics_agree MoreSamples.loaded /\
  cpuUsage (Exports.hook MoreSamples.loaded) = F32.of_Z 50.
Proof.
  destruct (telemetry_copies_agree MoreSamples.loaded [] F32.zero F32.zero
              F32.zero F32.zero 0 0 session_reachable) as (Hagree & _).
  split; [exact Hagree | reflexivity].
Defined.

Lemma installed_hook_has_entry_point_witness :
  initialized (Exports.hook MoreSamples.loaded) = true /\
  exists present,
    originalPresent (Exports.hook MoreSamples.loaded) = Some present /\
    HookedPresent (mkProcess (Exports.hook MoreSamples.loaded) 0%nat [])
      (Samples.ms 50) 4096 1 0 =
      Some (mkProcess
              (CalculateFPS (Exports.hook MoreSamples.loaded) (Samples.ms 50))
              (fst (present 4096 1 0 0%nat))
              ([] ++ [(4096, 1, 0)]),
            snd (present 4096 1 0 0%nat)).
Proof.
  split; [reflexivity|].
  exact (installed_hook_has_entry_point MoreSamples.loaded 0%nat []
           (Samples.ms 50) 4096 1 0 session_reachable eq_refl).
Defined.


Lemma setter_restores_discarded_config_witness :
  OverlayConfig.color
    (ImGuiOverlay.config
       (Exports.overlay
          (Exports.SetOverlayFontSize
             (Exports.mk
                (Exports.hook
                   (Exports.SetOverlayColor (Exports.globals0 nat)
                      F32.lit_1 F32.zero F32.zero F32.lit_1))
                (ImGuiOverlay.Initialize
                   (Exports.overlay
                      (Exports.SetOverlayColor (Exports.globals0 nat)
                         F32.lit_1 F32.zero F32.zero F32.lit_1)) 0 0)
                (Exports.g_metrics
                   (Exports.SetOverlayColor (Exports.globals0 nat)
                      F32.lit_1 F32.zero F32.zero F32.lit_1))
                (Exports.g_config
                   (Exports.SetOverlayColor (Exports.globals0 nat)
                      F32.lit_1 F32.zero F32.zero F32.lit_1)))
             20))) =
    (F32.lit_1, F32.zero, F32.zero, F32.lit_1).
Proof.
  destruct (setter_restores_discarded_config (Exports.globals0 nat)
              F32.lit_1 F32.zero F32.zero F32.lit_1 20 0 0 eq_refl)
    as (_ & _ & Hback & _).
  exact Hback.
Defined.

Lemma Render_builds_rendered_text_witness :
  exists b,
    ImGuiOverlay.Render MoreSamples.shown Samples.metrics =
      Some (MoreSamples.shown, ImGuiOverlay.Built b) /\
    holds_text b
      (ImGuiOverlay.GetRenderedText MoreSamples.shown Samples.metrics) /\
    ImGuiOverlay.offset b <= 279.
Proof.
  exact (Render_builds_rendered_text MoreSamples.shown Samples.metrics
           OverlayWitnesses.sample_metrics_wf eq_refl eq_refl).
Defined.

Lemma temps_flag_needs_a_usage_line_witness :
  ImGuiOverlay.GetRenderedText
    (ImGuiOverlay.SetConfig ImGuiOverlay.statics0
       (OverlayConfig.set_showTemps MoreSamples.memory_only false))
    Samples.metrics =
    ImGuiOverlay.GetRenderedText
      (ImGuiOverlay.SetConfig ImGuiOverlay.statics0 MoreSamples.memory_only)
      Samples.metrics.
Proof.
  exact (proj1 (temps_flag_needs_a_usage_line ImGuiOverlay.statics0
                  MoreSamples.memory_only Samples.metrics false
                  eq_refl eq_refl)).
Defined.

End MoreWitnesses.
